(** * Daily time tracker: a shallow embedding of [daily_time_tracker_bot.py]

    The development follows the Python module top to bottom: the time and
    text primitives it borrows from the standard library, the per-user
    state dictionaries, the [daily_stats] table, the activity logic, the
    two report builders, the [/month] command and the button handler.
    The theorems about them come last.

    Conventions of the model.
    - A [timedelta] is its exact number of microseconds, a [datetime] the
      number of microseconds since 0001-01-01 00:00 (both in [Z]); the
      range checks of the two Python classes (years 1..9999, at most
      999999999 days) are not modelled.
    - A [str] is a [string] of bytes (UTF-8 for the non ASCII literals).
    - Python dictionaries are objects with identity.  The dictionary kept
      for a user is named by the user's id (the key of [user_state], which
      is never rebound); a [totals] dictionary is named by a location in
      the store [dicts].
    - A function of the module is a computation in the monad [M]: it
      threads the [World] (both stores, the table and the messages sent
      so far) and ends with a value or with a raised exception, keeping
      whatever was mutated before the exception. *)

From Stdlib Require Import ZArith String List Ascii DecimalString Lia.
From stdpp Require Import base option list gmap strings.

Open Scope string_scope.
Open Scope Z_scope.

(** ** Text primitives *)

(** The line feed of ["\n"]. *)
Definition nl : string := String (ascii_of_nat 10) EmptyString.

(** [str(n)] for an [int]. *)
Definition str (n : Z) : string :=
  if n <? 0 then "-" ++ NilZero.string_of_uint (N.to_uint (Z.to_N (- n)))
  else NilZero.string_of_uint (N.to_uint (Z.to_N n)).

(** [s.zfill(width)] for a string of digits. *)
Definition zfill (width : nat) (s : string) : string :=
  String.concat "" (repeat "0" (width - String.length s)) ++ s.

(** The format specification [0{width}d]. *)
Definition fmt_0d (width : nat) (n : Z) : string :=
  if n <? 0 then "-" ++ zfill (width - 1) (str (- n)) else zfill width (str n).

(** ["\n".join(lines)]. *)
Definition join_lines (lines : list string) : string := String.concat nl lines.

(** ** Time primitives *)

Abbreviation timedelta := Z (only parsing).
Abbreviation datetime := Z (only parsing).

Definition US_PER_SECOND : Z := 1000000.

(** [timedelta(seconds=n)]. *)
Definition timedelta_of_seconds (n : Z) : timedelta := n * US_PER_SECOND.

(** [int(td.total_seconds())]: the float quotient truncated towards zero.
    The quotient by 10^6 is correctly rounded, so for durations under
    2^34 seconds (five centuries) truncating it is truncating the exact
    quotient. *)
Definition int_total_seconds (td : timedelta) : Z := Z.quot td US_PER_SECOND.


(** [dt.strftime('%H:%M')]. *)
Definition strftime_HM (dt : datetime) : string :=
  fmt_0d 2 ((dt / (3600 * US_PER_SECOND)) mod 24) ++ ":" ++
  fmt_0d 2 ((dt / (60 * US_PER_SECOND)) mod 60).

(** [format_timedelta], lines 56-60. *)
Definition format_timedelta (td : timedelta) : string :=
  let total_seconds := Z.max 0 (int_total_seconds td) in
  let hours := total_seconds / 3600 in
  let minutes := (total_seconds mod 3600) / 60 in
  str hours ++ "h " ++ str minutes ++ "min".

(** ** Calendar dates *)

Record date := mkDate { year : Z; month : Z; day : Z }.

Definition isleap (y : Z) : bool :=
  (y mod 4 =? 0) && (negb (y mod 100 =? 0) || (y mod 400 =? 0)).

(** [calendar.mdays] with its unused entry 0. *)
Definition mdays : list Z := [0; 31; 28; 31; 30; 31; 30; 31; 31; 30; 31; 30; 31].


Definition days_before_month (y m : Z) : Z :=
  nth (Z.to_nat m) [0; 0; 31; 59; 90; 120; 151; 181; 212; 243; 273; 304; 334] 0
  + (if (2 <? m) && isleap y then 1 else 0).

Definition DI400Y : Z := 146097.
Definition DI100Y : Z := 36524.
Definition DI4Y : Z := 1461.

(** [date.fromordinal]: the proleptic Gregorian date of day number [n],
    where day 1 is 0001-01-01. *)
Definition ord2ymd (n : Z) : date :=
  let n := n - 1 in
  let n400 := n / DI400Y in
  let n := n mod DI400Y in
  let n100 := n / DI100Y in
  let n := n mod DI100Y in
  let n4 := n / DI4Y in
  let n := n mod DI4Y in
  let n1 := n / 365 in
  let n := n mod 365 in
  let y := n400 * 400 + 1 + n100 * 100 + n4 * 4 + n1 in
  if (n1 =? 4) || (n100 =? 4) then mkDate (y - 1) 12 31
  else
    let leapyear := (n1 =? 3) && (negb (n4 =? 24) || (n100 =? 3)) in
    let m := Z.shiftr (n + 50) 5 in
    let preceding :=
      days_before_month 1 m + (if (2 <? m) && leapyear then 1 else 0) in
    if n <? preceding then
      let m' := m - 1 in
      let preceding' :=
        preceding - (nth (Z.to_nat m') mdays 0
                     + (if (m' =? 2) && leapyear then 1 else 0)) in
      mkDate y m' (n - preceding' + 1)
    else mkDate y m (n - preceding + 1).

(** [dt.date()]. *)
Definition date_of (dt : datetime) : date :=
  ord2ymd (dt / (86400 * US_PER_SECOND) + 1).

(** [d.isoformat()]. *)
Definition isoformat (d : date) : string :=
  fmt_0d 4 (year d) ++ "-" ++ fmt_0d 2 (month d) ++ "-" ++ fmt_0d 2 (day d).

(** ** Exceptions

    [DanglingRef] stands for a reference to an object that the store does
    not hold; Python has no such reference, and no function of the module
    raises it in a world where every [totals] location is allocated. *)
Inductive exn :=
| KeyError (key : string)
| ValueError
| OverflowError
| ZeroDivisionError
| AttributeError
| TypeError
| IndexError
| DanglingRef.

Inductive outcome (A : Type) :=
| Ret (a : A)
| Raise (e : exn).
Arguments Ret {A} a.
Arguments Raise {A} e.




(** ** The state of the process *)

(** The dictionary [get_user_state] builds for a user.  [totals] holds a
    reference to a dictionary from activity codes to durations. *)
Record State := mkState {
  wake_time : option datetime;
  sleep_time : option datetime;
  current_activity : option string;
  current_start : option datetime;
  totals : positive
}.

Definition with_wake_time (v : option datetime) (s : State) : State :=
  mkState v (sleep_time s) (current_activity s) (current_start s) (totals s).
Definition with_sleep_time (v : option datetime) (s : State) : State :=
  mkState (wake_time s) v (current_activity s) (current_start s) (totals s).
Definition with_current_activity (v : option string) (s : State) : State :=
  mkState (wake_time s) (sleep_time s) v (current_start s) (totals s).
Definition with_current_start (v : option datetime) (s : State) : State :=
  mkState (wake_time s) (sleep_time s) (current_activity s) v (totals s).
Definition with_totals (v : positive) (s : State) : State :=
  mkState (wake_time s) (sleep_time s) (current_activity s) (current_start s) v.

(** A row of the table [daily_stats]; its primary key is
    [(user_id, date)]. *)
Record Row := mkRow {
  row_user_id : Z;
  row_date : string;
  alive_seconds : Z;
  contrib_seconds : Z;
  hands_seconds : Z;
  soft_seconds : Z;
  coding_seconds : Z
}.

(** An inline keyboard: rows of buttons, a button being its label and
    its [callback_data]. *)
Definition InlineKeyboardMarkup : Type := list (list (string * string)).

Record World := mkWorld {
  user_state : gmap Z State;
  dicts : gmap positive (gmap string Z);
  daily_stats : list Row;
  sent : list (string * option InlineKeyboardMarkup)
}.

Definition with_user_state (v : gmap Z State) (w : World) : World :=
  mkWorld v (dicts w) (daily_stats w) (sent w).
Definition with_dicts (v : gmap positive (gmap string Z)) (w : World) : World :=
  mkWorld (user_state w) v (daily_stats w) (sent w).
Definition with_daily_stats (v : list Row) (w : World) : World :=
  mkWorld (user_state w) (dicts w) v (sent w).
Definition with_sent (v : list (string * option InlineKeyboardMarkup)) (w : World) : World :=
  mkWorld (user_state w) (dicts w) (daily_stats w) v.

(** The world at import time: [user_state = {}], no table row. *)
Definition initial_world : World := mkWorld ∅ ∅ [] [].

(** ** The monad of the module's functions *)

Definition M (A : Type) : Type := World -> outcome A * World.

Definition ret {A} (a : A) : M A := fun w => (Ret a, w).
Definition raise {A} (e : exn) : M A := fun w => (Raise e, w).
Definition bind {A B} (m : M A) (k : A -> M B) : M B :=
  fun w =>
    match m w with
    | (Ret a, w') => k a w'
    | (Raise e, w') => (Raise e, w')
    end.
Definition lift {A} (o : outcome A) : M A := fun w => (o, w).

Notation "'let*' x ':=' m 'in' k" := (bind m (fun x => k))
  (at level 10, x name, m at level 100, k at level 200).

(** [state[field]] and [state[field] = v], for the dictionary of user
    [state]. *)
Definition state_get {A} (state : Z) (field : State -> A) : M A :=
  fun w =>
    match user_state w !! state with
    | Some s => (Ret (field s), w)
    | None => (Raise DanglingRef, w)
    end.

Definition state_set (state : Z) (upd : State -> State) : M unit :=
  fun w =>
    match user_state w !! state with
    | Some s => (Ret tt, with_user_state (<[state := upd s]> (user_state w)) w)
    | None => (Raise DanglingRef, w)
    end.

(** [d[k]], [d[k] = v], a dictionary display and [dict(d)]. *)
Definition dict_getitem (d : positive) (k : string) : M Z :=
  fun w =>
    match dicts w !! d with
    | Some m =>
        match m !! k with
        | Some v => (Ret v, w)
        | None => (Raise (KeyError k), w)
        end
    | None => (Raise DanglingRef, w)
    end.

Definition dict_setitem (d : positive) (k : string) (v : Z) : M unit :=
  fun w =>
    match dicts w !! d with
    | Some m => (Ret tt, with_dicts (<[d := <[k := v]> m]> (dicts w)) w)
    | None => (Raise DanglingRef, w)
    end.

Definition dict_new (m : gmap string Z) : M positive :=
  fun w =>
    let d := fresh (dom (dicts w)) in
    (Ret d, with_dicts (<[d := m]> (dicts w)) w).

Definition dict_copy (d : positive) : M positive :=
  fun w =>
    match dicts w !! d with
    | Some m => dict_new m w
    | None => (Raise DanglingRef, w)
    end.

(** [message.reply_text(text, reply_markup=markup)]. *)
Definition reply_text (text : string) (markup : option InlineKeyboardMarkup) : M unit :=
  fun w => (Ret tt, with_sent (sent w ++ [(text, markup)])%list w).

(** Truth value of a [str | None]. *)
Definition truthy (o : option string) : bool :=
  match o with
  | Some s => negb (String.eqb s "")
  | None => false
  end.

(** ** Per-user state, lines 34-51 *)

Definition zero_totals : gmap string Z :=
  <["contrib" := 0]> (<["soft" := 0]> (<["hands" := 0]> (<["coding" := 0]> ∅))).

Definition get_user_state (user_id : Z) : M Z :=
  fun w =>
    match user_state w !! user_id with
    | Some _ => (Ret user_id, w)
    | None =>
        (let* d := dict_new zero_totals in
         fun w' =>
           (Ret user_id,
            with_user_state
              (<[user_id := mkState None None None None d]> (user_state w')) w')) w
    end.

(** ** Keyboards, lines 63-135 *)

Definition build_main_menu_keyboard : InlineKeyboardMarkup :=
  [ [("🟢 Woke up", "woke_up"); ("😴 Sleep time", "sleep_time")];
    [("🟦 Contribution (X/DC)", "start_contrib")];
    [("🟧 Abuse", "abuse_menu")];
    [("🟪 Coding", "start_coding")];
    [("📊 Daily Report", "daily_report")] ].

Definition ACTIVITY_NAMES : gmap string string :=
  <["contrib" := "Contribution (X/DC)"]>
    (<["soft" := "Abuse Soft (Retro/Free)"]>
       (<["hands" := "Abuse Hands (Retro/Free)"]>
          (<["coding" := "Coding"]> ∅))).

(** [ACTIVITY_NAMES[code]]. *)
Definition activity_name (code : string) : M string :=
  match ACTIVITY_NAMES !! code with
  | Some name => ret name
  | None => raise (KeyError code)
  end.

Definition build_activity_keyboard (code : string) : M InlineKeyboardMarkup :=
  let* name := activity_name code in
  ret [ [("⏸ Pause " ++ name, "pause_" ++ code)];
        [("📋 Menu", "show_menu")] ].

Definition build_paused_keyboard (code : string) : M InlineKeyboardMarkup :=
  let* name := activity_name code in
  ret [ [("▶️ Continue " ++ name, "continue_" ++ code)];
        [("📋 Menu", "show_menu")] ].

Definition build_abuse_keyboard : InlineKeyboardMarkup :=
  [ [("Soft (Retro/Free)", "start_soft")];
    [("Hands (Retro/Free)", "start_hands")];
    [("📋 Menu", "show_menu")] ].

(** ** The table [daily_stats], lines 140-227 *)

Definition same_key (user_id : Z) (d : string) (r : Row) : bool :=
  (row_user_id r =? user_id) && String.eqb (row_date r) d.

(** [INSERT OR REPLACE]: the row with the same primary key, if any, is
    deleted first. *)
Definition insert_or_replace (r : Row) (table : list Row) : list Row :=
  (List.filter (fun r' => negb (same_key (row_user_id r) (row_date r) r')) table
   ++ [r])%list.

Definition save_daily_stats_to_db
    (user_id : Z) (day_date : date) (alive : timedelta) (totals : positive) : M unit :=
  let* c := dict_getitem totals "contrib" in
  let* h := dict_getitem totals "hands" in
  let* s := dict_getitem totals "soft" in
  let* g := dict_getitem totals "coding" in
  let values :=
    mkRow user_id (isoformat day_date) (int_total_seconds alive)
      (int_total_seconds c) (int_total_seconds h)
      (int_total_seconds s) (int_total_seconds g) in
  fun w => (Ret tt, with_daily_stats (insert_or_replace values (daily_stats w)) w).

(** The value [get_stats_range] returns. *)
Record Stats := mkStats {
  alive : timedelta;
  contrib : timedelta;
  hands : timedelta;
  soft : timedelta;
  coding : timedelta;
  days_count : Z
}.

(** The [WHERE] clause; [date] is a [TEXT] column, compared bytewise. *)
Definition in_range (user_id : Z) (start_date end_date : date) (r : Row) : bool :=
  (row_user_id r =? user_id)
  && String.leb (isoformat start_date) (row_date r)
  && String.leb (row_date r) (isoformat end_date).

(** [SUM(col)] is [NULL] over no row; [COALESCE(x, 0)]. *)
Definition sql_sum (col : Row -> Z) (rows : list Row) : option Z :=
  match rows with
  | [] => None
  | _ => Some (foldr (fun r acc => col r + acc) 0 rows)
  end.

Definition coalesce (x : option Z) (dflt : Z) : Z :=
  match x with
  | Some v => v
  | None => dflt
  end.

Definition get_stats_range (user_id : Z) (start_date end_date : date) : M (option Stats) :=
  fun w =>
    let rows := List.filter (in_range user_id start_date end_date) (daily_stats w) in
    let alive_sec := coalesce (sql_sum alive_seconds rows) 0 in
    let contrib_sec := coalesce (sql_sum contrib_seconds rows) 0 in
    let hands_sec := coalesce (sql_sum hands_seconds rows) 0 in
    let soft_sec := coalesce (sql_sum soft_seconds rows) 0 in
    let coding_sec := coalesce (sql_sum coding_seconds rows) 0 in
    let days_count := Z.of_nat (length rows) in
    (Ret (Some (mkStats (timedelta_of_seconds alive_sec)
                        (timedelta_of_seconds contrib_sec)
                        (timedelta_of_seconds hands_sec)
                        (timedelta_of_seconds soft_sec)
                        (timedelta_of_seconds coding_sec)
                        days_count)), w).

(** ** Activity logic, lines 232-245 *)

Definition clamp (delta : timedelta) : timedelta :=
  if delta <? 0 then 0 else delta.

Definition close_current_activity (state : Z) (now : datetime) : M (option string) :=
  let* code := state_get state current_activity in
  let* start := state_get state current_start in
  match code, start with
  | Some c, Some t0 =>
      if String.eqb c "" then ret None
      else
        let delta := clamp (now - t0) in
        let* tot := state_get state totals in
        let* v := dict_getitem tot c in
        let* _ := dict_setitem tot c (v + delta) in
        let* _ := state_set state (with_current_activity None) in
        let* _ := state_set state (with_current_start None) in
        ret (Some c)
  | _, _ => ret None
  end.

(** ** Report builders, lines 248-320 *)

Definition build_daily_report_text (state : Z) (now : datetime) : M string :=
  let* wake := state_get state wake_time in
  let* sleep := state_get state sleep_time in
  match wake with
  | None => ret "First mark 🟢 Woke up."
  | Some wake =>
      let* tot := state_get state totals in
      let* totals := dict_copy tot in
      let* cur := state_get state current_activity in
      let* cur_start := state_get state current_start in
      let* _ :=
        match cur, cur_start with
        | Some c, Some t0 =>
            if String.eqb c "" then ret tt
            else
              let extra := clamp (now - t0) in
              let* v := dict_getitem totals c in
              dict_setitem totals c (v + extra)
        | _, _ => ret tt
        end in
      let end_ := default now sleep in
      let alive := clamp (end_ - wake) in
      let lines :=
        [ "📊 Daily Report";
          "Woke up: " ++ strftime_HM wake;
          match sleep with
          | Some _ => "Sleep time: " ++ strftime_HM end_
          | None => "Sleep time: not yet"
          end;
          "Alive: " ++ format_timedelta alive;
          "";
          "Work:" ] in
      let* t_contrib := dict_getitem totals "contrib" in
      let* t_soft := dict_getitem totals "soft" in
      let* t_hands := dict_getitem totals "hands" in
      let* t_coding := dict_getitem totals "coding" in
      let lines :=
        app lines
          [ "• Contribution (X/DC): " ++ format_timedelta t_contrib;
            "• Abuse:";
            "  - Soft (Retro/Free): " ++ format_timedelta t_soft;
            "  - Hands (Retro/Free): " ++ format_timedelta t_hands;
            "• Coding: " ++ format_timedelta t_coding ] in
      let* cur := state_get state current_activity in
      match cur with
      | Some c =>
          if String.eqb c "" then ret (join_lines lines)
          else
            let* name := activity_name c in
            let* cur_start := state_get state current_start in
            match cur_start with
            | Some t0 =>
                ret (join_lines
                       (app lines
                          [ ""; "Now: " ++ name ++ " (since " ++ strftime_HM t0 ++ ")" ]))
            | None => raise AttributeError
            end
      | None => ret (join_lines lines)
      end
  end.




(** ** The [/month] command, lines 347-384 *)









(** [s.split(sep, 1)] for a separator of one character. *)
Fixpoint split_1 (sep : ascii) (s : string) : list string :=
  match s with
  | EmptyString => [ "" ]
  | String c s' =>
      if Ascii.eqb c sep then [ ""; s' ]
      else
        match split_1 sep s' with
        | hd :: tl => String c hd :: tl
        | [] => []
        end
  end.




(** ** The button handler, lines 389-515 *)

(** The branch [data == "woke_up"], lines 405-418. *)
Definition on_woke_up (state : Z) (now : datetime) : M unit :=
  let* _ := state_set state (with_wake_time (Some now)) in
  let* _ := state_set state (with_sleep_time None) in
  let* d := dict_new zero_totals in
  let* _ := state_set state (with_totals d) in
  let* _ := state_set state (with_current_activity None) in
  let* _ := state_set state (with_current_start None) in
  let msg := "🟢 Woke up at " ++ strftime_HM now ++ "." in
  reply_text msg (Some build_main_menu_keyboard).

(** The branch [data == "sleep_time"], lines 421-448. *)
Definition on_sleep_time (user_id : Z) (state : Z) (now : datetime) : M unit :=
  let* wake := state_get state wake_time in
  match wake with
  | None => reply_text "First mark 🟢 Woke up." (Some build_main_menu_keyboard)
  | Some _ =>
      let* _ := state_set state (with_sleep_time (Some now)) in
      let* closed := close_current_activity state now in
      let msg := "😴 Sleep time at " ++ strftime_HM now ++ "." in
      let* msg :=
        match closed with
        | Some c =>
            if String.eqb c "" then ret msg
            else
              let* name := activity_name c in
              ret (msg ++ nl ++ "Auto pause: " ++ name ++ ".")
        | None => ret msg
        end in
      let* _ := reply_text msg (Some build_main_menu_keyboard) in
      let* wake := state_get state wake_time in
      let* end_ := state_get state sleep_time in
      match wake, end_ with
      | Some wake, Some end_ =>
          let alive := clamp (end_ - wake) in
          let* tot := state_get state totals in
          let* totals_copy := dict_copy tot in
          let day_date := date_of wake in
          let* _ := save_daily_stats_to_db user_id day_date alive totals_copy in
          let* report := build_daily_report_text state now in
          reply_text report (Some build_main_menu_keyboard)
      | _, _ => raise TypeError
      end
  end.

(** The closures [start_act], [pause_act] and [continue_act], lines
    456-474, with the [state] and [now] they capture. *)
Definition start_act (state : Z) (now : datetime) (code : string) : M string :=
  let* closed := close_current_activity state now in
  let* _ := state_set state (with_current_activity (Some code)) in
  let* _ := state_set state (with_current_start (Some now)) in
  let* name := activity_name code in
  let text := "▶️ Start " ++ name ++ " at " ++ strftime_HM now ++ "." in
  match closed with
  | Some c =>
      if String.eqb c "" then ret text
      else
        let* cname := activity_name c in
        ret (text ++ nl ++ "Auto pause: " ++ cname ++ ".")
  | None => ret text
  end.

Definition pause_act (state : Z) (now : datetime) (code : string) : M string :=
  let* cur := state_get state current_activity in
  if bool_decide (cur = Some code) then
    let* _ := close_current_activity state now in
    let* name := activity_name code in
    ret ("⏸ Pause " ++ name ++ " at " ++ strftime_HM now ++ ".")
  else
    let* name := activity_name code in
    ret (name ++ " is not active.").

Definition continue_act (state : Z) (now : datetime) (code : string) : M string :=
  let* _ := state_set state (with_current_activity (Some code)) in
  let* _ := state_set state (with_current_start (Some now)) in
  let* name := activity_name code in
  ret ("▶️ Continue " ++ name ++ " at " ++ strftime_HM now ++ ".").

(** [data.split("_", 1)[1]]. *)
Definition code_of (data : string) : M string :=
  match split_1 "_" data with
  | _ :: code :: _ => ret code
  | _ => raise IndexError
  end.

Definition start_from_menu (state : Z) (now : datetime) (code : string) : M unit :=
  let* msg := start_act state now code in
  let* kb := build_activity_keyboard code in
  reply_text msg (Some kb).

Definition callback_handler (user_id : Z) (data : string) (now : datetime) : M unit :=
  let* state := get_user_state user_id in
  if String.eqb data "show_menu" then
    reply_text "Menu:" (Some build_main_menu_keyboard)
  else if String.eqb data "woke_up" then on_woke_up state now
  else if String.eqb data "sleep_time" then on_sleep_time user_id state now
  else if String.eqb data "abuse_menu" then
    reply_text "Abuse mode:" (Some build_abuse_keyboard)
  else if String.eqb data "start_contrib" then start_from_menu state now "contrib"
  else if String.eqb data "start_soft" then start_from_menu state now "soft"
  else if String.eqb data "start_hands" then start_from_menu state now "hands"
  else if String.eqb data "start_coding" then start_from_menu state now "coding"
  else if String.prefix "pause_" data then
    let* code := code_of data in
    let* msg := pause_act state now code in
    let* kb := build_paused_keyboard code in
    reply_text msg (Some kb)
  else if String.prefix "continue_" data then
    let* code := code_of data in
    let* msg := continue_act state now code in
    let* kb := build_activity_keyboard code in
    reply_text msg (Some kb)
  else if String.eqb data "daily_report" then
    let* msg := build_daily_report_text state now in
    reply_text msg (Some build_main_menu_keyboard)
  else ret tt.

(** * Vocabulary of the statements *)




Definition sample_row : Row := mkRow 7 "2025-11-30" 50000 7200 0 3600 10800.


(** [has_day w state s d]: the dictionary of [state] is [s] and its
    [totals] dictionary is [d]. *)
Definition has_day (w : World) (state : Z) (s : State) (d : gmap string Z) : Prop :=
  user_state w !! state = Some s /\ dicts w !! totals s = Some d.

(** The world where [state] holds [s] and the dictionary [s] refers to
    holds [d]; everything else is as in [w]. *)
Definition put_day (state : Z) (s : State) (d : gmap string Z) (w : World) : World :=
  mkWorld (<[state := s]> (user_state w)) (<[totals s := d]> (dicts w))
          (daily_stats w) (sent w).

Definition KINDS : list string := ["contrib"; "soft"; "hands"; "coding"].

(** The activity [close_current_activity] would close, with its start. *)
Definition closing (s : State) : option (string * datetime) :=
  match current_activity s, current_start s with
  | Some c, Some t0 => if String.eqb c "" then None else Some (c, t0)
  | _, _ => None
  end.

Definition stopped (s : State) : State :=
  mkState (wake_time s) (sleep_time s) None None (totals s).

Definition running (s : State) (code : string) (now : datetime) : State :=
  mkState (wake_time s) (sleep_time s) (Some code) (Some now) (totals s).

(** [preserves P m]: from a world in [P], [m] ends in a world in [P],
    whether it returns or raises. *)
Definition preserves {A} (P : World -> Prop) (m : M A) : Prop :=
  forall w, P w -> P (snd (m w)).

(** Properties of the user states alone. *)
Definition on_user_state (Q : gmap Z State -> Prop) (w : World) : Prop :=
  Q (user_state w).

Definition marks (s : State) : option datetime * option datetime :=
  (wake_time s, sleep_time s).

Definition same_marks (m0 m : gmap Z State) : Prop :=
  forall u, marks <$> (m !! u) = marks <$> (m0 !! u).

Definition inv (s : State) : Prop :=
  current_activity s = None <-> current_start s = None.

Definition all_inv (m : gmap Z State) : Prop :=
  forall u s, m !! u = Some s -> inv s.

(** [day_wf s d]: the totals hold the four kinds, and the running
    activity, if any, is one of them and has its start. *)
Definition day_wf (s : State) (d : gmap string Z) : Prop :=
  (forall k, k ∈ KINDS -> is_Some (d !! k))
  /\ (forall c, current_activity s = Some c -> c ∈ KINDS /\ is_Some (current_start s))
  /\ (current_activity s = None -> current_start s = None).

(** A day as [get_user_state] and the wake-up button leave it. *)
Definition fresh_day (s : State) (d : gmap string Z) : Prop :=
  current_activity s = None /\ current_start s = None
  /\ forall k, k ∈ KINDS -> d !! k = Some 0.

(** The totals once the running activity is credited up to [now]. *)
Definition credit (s : State) (d : gmap string Z) (now : datetime) : gmap string Z :=
  match closing s with
  | Some (c, t0) =>
      match d !! c with
      | Some v => <[c := v + clamp (now - t0)]> d
      | None => d
      end
  | None => d
  end.

Definition name_of (code : string) : string := default "" (ACTIVITY_NAMES !! code).

Definition start_message (code : string) (now : datetime) (closed : option string) : string :=
  let text := "▶️ Start " ++ name_of code ++ " at " ++ strftime_HM now ++ "." in
  match closed with
  | Some c => text ++ nl ++ "Auto pause: " ++ name_of c ++ "."
  | None => text
  end.

Definition pause_message (code : string) (now : datetime) : string :=
  "⏸ Pause " ++ name_of code ++ " at " ++ strftime_HM now ++ ".".

Definition continue_message (code : string) (now : datetime) : string :=
  "▶️ Continue " ++ name_of code ++ " at " ++ strftime_HM now ++ ".".

Definition sum_totals (d : gmap string Z) : Z :=
  foldr (fun k acc => default 0 (d !! k) + acc) 0 KINDS.

(** The duration of the running activity at [now], as the daily report
    counts it. *)
Definition running_elapsed (s : State) (now : datetime) : Z :=
  match closing s with
  | Some (_, t0) => clamp (now - t0)
  | None => 0
  end.

Definition tracked (w : World) (state : Z) (now : datetime) : option Z :=
  match user_state w !! state with
  | Some s =>
      match dicts w !! totals s with
      | Some d => Some (sum_totals d + running_elapsed s now)
      | None => None
      end
  | None => None
  end.

(** The scenario of the specification: start [A], start [B], pause [B]. *)
Definition switch_scenario (state : Z) (A B : string) (t0 t1 t2 : datetime)
    : M (string * string * string) :=
  let* m0 := start_act state t0 A in
  let* m1 := start_act state t1 B in
  let* m2 := pause_act state t2 B in
  ret (m0, m1, m2).

Inductive op :=
| Start (code : string) (t : datetime)
| Pause (code : string) (t : datetime)
| Resume (code : string) (t : datetime).

Definition op_code (o : op) : string :=
  match o with Start c _ | Pause c _ | Resume c _ => c end.



Definition do_op (state : Z) (o : op) : M string :=
  match o with
  | Start c t => start_act state t c
  | Pause c t => pause_act state t c
  | Resume c t => continue_act state t c
  end.





(** The text of the report for a day whose working totals are
    [working]. *)
Definition daily_text (s : State) (working : gmap string Z) (wake now : datetime) : string :=
  let end_ := default now (sleep_time s) in
  let shown k := format_timedelta (default 0 (working !! k)) in
  let lines :=
    [ "📊 Daily Report";
      "Woke up: " ++ strftime_HM wake;
      match sleep_time s with
      | Some _ => "Sleep time: " ++ strftime_HM end_
      | None => "Sleep time: not yet"
      end;
      "Alive: " ++ format_timedelta (clamp (end_ - wake));
      "";
      "Work:";
      "• Contribution (X/DC): " ++ shown "contrib";
      "• Abuse:";
      "  - Soft (Retro/Free): " ++ shown "soft";
      "  - Hands (Retro/Free): " ++ shown "hands";
      "• Coding: " ++ shown "coding" ] in
  match closing s with
  | Some (c, t0) =>
      join_lines
        (app lines [ ""; "Now: " ++ name_of c ++ " (since " ++ strftime_HM t0 ++ ")" ])
  | None => join_lines lines
  end.

(** The world with one more dictionary, at the location [dict_new]
    picks. *)
Definition with_new_dict (m : gmap string Z) (w : World) : World :=
  with_dicts (<[fresh (dom (dicts w)) := m]> (dicts w)) w.

(** [frame w0 w]: [w] has the states, table and messages of [w0], and
    every dictionary of [w0] unchanged. *)
Definition frame (w0 w : World) : Prop :=
  user_state w = user_state w0
  /\ daily_stats w = daily_stats w0
  /\ sent w = sent w0
  /\ forall l x, dicts w0 !! l = Some x -> dicts w !! l = Some x.

Definition NO_ACTIVE_DAY : string := "First mark 🟢 Woke up.".

Definition sleep_message (now : datetime) (closed : option string) : string :=
  let msg := "😴 Sleep time at " ++ strftime_HM now ++ "." in
  match closed with
  | Some c => msg ++ nl ++ "Auto pause: " ++ name_of c ++ "."
  | None => msg
  end.

(** The row the sleep button saves for the day. *)
Definition day_row (user_id : Z) (wake now : datetime) (d : gmap string Z) : Row :=
  mkRow user_id (isoformat (date_of wake)) (int_total_seconds (clamp (now - wake)))
    (int_total_seconds (default 0 (d !! "contrib")))
    (int_total_seconds (default 0 (d !! "hands")))
    (int_total_seconds (default 0 (d !! "soft")))
    (int_total_seconds (default 0 (d !! "coding"))).

(** [on_sleep_time] said that no day is active, and nothing else. *)
Definition signals_no_active_day (w w' : World) : Prop :=
  sent w' = (sent w ++ [(NO_ACTIVE_DAY, Some build_main_menu_keyboard)])%list.

(** A clock time on 2025-11-06. *)
Definition at_clock (h m : Z) : datetime :=
  (739560 * 86400 + h * 3600 + m * 60) * US_PER_SECOND.

(** The state [get_user_state] creates. *)
Definition day0 : State := mkState None None None None 1.

(** The process after user 7 was first seen. *)
Definition world0 : World :=
  mkWorld {[ 7 := day0 ]} {[ 1%positive := zero_totals ]} [] [].

(** User 7 woke at 08:00 and has been coding since 09:00. *)
Definition day_coding : State :=
  mkState (Some (at_clock 8 0)) None (Some "coding") (Some (at_clock 9 0)) 1.

Definition world_coding : World :=
  mkWorld {[ 7 := day_coding ]} {[ 1%positive := zero_totals ]} [] [].

Definition woke_up_message (now : datetime) : string :=
  "🟢 Woke up at " ++ strftime_HM now ++ ".".

Definition row_key (r : Row) : Z * string := (row_user_id r, row_date r).

(** What [get_stats_range] returns when exactly the row [r] is in range. *)
Definition stats_of_row (r : Row) : Stats :=
  mkStats (timedelta_of_seconds (alive_seconds r))
          (timedelta_of_seconds (contrib_seconds r))
          (timedelta_of_seconds (hands_seconds r))
          (timedelta_of_seconds (soft_seconds r))
          (timedelta_of_seconds (coding_seconds r))
          1.

(** The row [save_daily_stats_to_db] writes. *)
Definition saved_row (user_id : Z) (day_date : date) (alive_td : timedelta)
    (m : gmap string Z) : Row :=
  mkRow user_id (isoformat day_date) (int_total_seconds alive_td)
    (int_total_seconds (default 0 (m !! "contrib")))
    (int_total_seconds (default 0 (m !! "hands")))
    (int_total_seconds (default 0 (m !! "soft")))
    (int_total_seconds (default 0 (m !! "coding"))).

(** The [callback_data] of the buttons of a keyboard. *)
Definition callback_data_of (kb : InlineKeyboardMarkup) : list string :=
  map snd (concat kb).

(** What the handler does with the data of a pause and of a continue
    button. *)
Definition pause_branch (user_id : Z) (code : string) (now : datetime) : M unit :=
  let* state := get_user_state user_id in
  let* msg := pause_act state now code in
  let* kb := build_paused_keyboard code in
  reply_text msg (Some kb).

Definition continue_branch (user_id : Z) (code : string) (now : datetime) : M unit :=
  let* state := get_user_state user_id in
  let* msg := continue_act state now code in
  let* kb := build_activity_keyboard code in
  reply_text msg (Some kb).

(** The [callback_data] of every button the module puts on a keyboard,
    the activity and paused keyboards being built for the four kinds. *)
Definition BUTTONS : list string :=
  callback_data_of build_main_menu_keyboard
  ++ callback_data_of build_abuse_keyboard
  ++ flat_map (fun k => ["pause_" ++ k; "continue_" ++ k]) KINDS.

(** Every user's day is in good order. *)
Definition world_wf (w : World) : Prop :=
  forall u s, user_state w !! u = Some s ->
    exists d, dicts w !! totals s = Some d /\ day_wf s d.

(** One button press, on a day in good order. *)
Definition pressed (w w' : World) : Prop :=
  world_wf w' /\ (length (sent w) < length (sent w'))%nat.

(** * Theorems *)

(** ** The duration formatter *)





(** ** Range aggregation and the range report *)

Lemma filter_all_false {A} (f : A -> bool) (l : list A) :
  Forall (fun x => f x = false) l -> List.filter f l = [].
Proof.
  induction 1 as [|x l Hx _ IH]; cbn; [reflexivity|]. rewrite Hx. exact IH.
Qed.




(** ** The month request *)






(** ** Worlds that hold a day *)

Lemma has_day_put_day state s d w : has_day (put_day state s d w) state s d.
Proof. split; cbn; apply lookup_insert_eq. Qed.

Lemma put_day_put_day state s1 d1 s2 d2 w :
  totals s1 = totals s2 ->
  put_day state s2 d2 (put_day state s1 d1 w) = put_day state s2 d2 w.
Proof.
  intros Ht. unfold put_day; cbn. rewrite Ht, !insert_insert_eq. reflexivity.
Qed.

Lemma put_day_same state s d w : has_day w state s d -> put_day state s d w = w.
Proof.
  intros [Hs Hd]. unfold put_day. rewrite (insert_id _ _ _ Hs), (insert_id _ _ _ Hd).
  destruct w; reflexivity.
Qed.

Lemma clamp_max x : clamp x = Z.max 0 x.
Proof. unfold clamp. destruct (Z.ltb_spec x 0); lia. Qed.

Ltac run_prims :=
  unfold bind, ret, raise, lift, state_get, state_set, dict_getitem, dict_setitem,
    dict_copy, dict_new, reply_text.

Ltac run :=
  run_prims;
  repeat progress
    (cbn;
     rewrite ?lookup_insert_eq, ?insert_insert_eq;
     repeat match goal with
            | H : ?m !! ?k = _ |- context [?m !! ?k] => rewrite H
            end).

Lemma close_run w state s d now :
  has_day w state s d ->
  close_current_activity state now w =
  match closing s with
  | Some (c, t0) =>
      match d !! c with
      | Some v =>
          (Ret (Some c), put_day state (stopped s) (<[c := v + clamp (now - t0)]> d) w)
      | None => (Raise (KeyError c), w)
      end
  | None => (Ret None, w)
  end.
Proof.
  intros [Hs Hd]. unfold close_current_activity, closing. run.
  destruct (current_activity s) as [c|]; [|done].
  destruct (current_start s) as [t0|]; [|done].
  destruct (String.eqb c ""); [done|]. run.
  destruct (d !! c) as [v|] eqn:Hv; run; done.
Qed.

(** C3.  [close_current_activity] returns [None] and changes nothing
    when no activity runs; otherwise it adds exactly
    [max 0 (now - current_start)] to the total of the running activity,
    clears [current_activity] and [current_start] and returns the closed
    kind, after which a second call is a no-op. *)
Theorem close_current_activity_spec
    (w : World) (state : Z) (s : State) (d : gmap string Z) (now : datetime) :
  has_day w state s d ->
  (current_activity s = None -> close_current_activity state now w = (Ret None, w))
  /\ (forall c t0 v,
        current_activity s = Some c -> c <> "" ->
        current_start s = Some t0 -> d !! c = Some v ->
        let w' := put_day state (stopped s) (<[c := v + Z.max 0 (now - t0)]> d) w in
        close_current_activity state now w = (Ret (Some c), w')
        /\ has_day w' state (stopped s) (<[c := v + Z.max 0 (now - t0)]> d)
        /\ forall now', close_current_activity state now' w' = (Ret None, w')).
Proof.
  intros Hday. split.
  - intros Hnone. rewrite (close_run _ _ _ _ _ Hday). unfold closing.
    rewrite Hnone. reflexivity.
  - intros c t0 v Hc Hne Ht Hv w'. split; [|split].
    + rewrite (close_run _ _ _ _ _ Hday). unfold closing. rewrite Hc, Ht.
      apply String.eqb_neq in Hne. rewrite Hne, Hv, clamp_max. reflexivity.
    + apply has_day_put_day.
    + intros now'. unfold w'.
      rewrite (close_run _ _ _ _ _ (has_day_put_day _ _ _ _)). reflexivity.
Qed.

(** ** Properties kept along every path *)

Lemma preserves_ret {A} P (a : A) : preserves P (ret a).
Proof. intros w H. exact H. Qed.

Lemma preserves_raise {A} P e : preserves P (@raise A e).
Proof. intros w H. exact H. Qed.

Lemma preserves_lift {A} P (o : outcome A) : preserves P (lift o).
Proof. intros w H. exact H. Qed.

Lemma preserves_bind {A B} P (m : M A) (k : A -> M B) :
  preserves P m -> (forall a, preserves P (k a)) -> preserves P (bind m k).
Proof.
  intros Hm Hk w H. unfold bind. specialize (Hm w H).
  destruct (m w) as [[a|e] w']; cbn in *; [apply Hk|]; exact Hm.
Qed.

Lemma preserves_state_get {A} P state (f : State -> A) : preserves P (state_get state f).
Proof. intros w H. unfold state_get. destruct (user_state w !! state); exact H. Qed.

Lemma preserves_activity_name P code : preserves P (activity_name code).
Proof. intros w H. unfold activity_name. destruct (ACTIVITY_NAMES !! code); exact H. Qed.

Lemma preserves_dict_getitem Q d k : preserves (on_user_state Q) (dict_getitem d k).
Proof.
  intros w H. unfold dict_getitem.
  destruct (dicts w !! d) as [m|]; [destruct (m !! k)|]; exact H.
Qed.

Lemma preserves_dict_setitem Q d k v : preserves (on_user_state Q) (dict_setitem d k v).
Proof. intros w H. unfold dict_setitem. destruct (dicts w !! d); exact H. Qed.

Lemma preserves_dict_new Q m : preserves (on_user_state Q) (dict_new m).
Proof. intros w H. exact H. Qed.

Lemma preserves_dict_copy Q d : preserves (on_user_state Q) (dict_copy d).
Proof. intros w H. unfold dict_copy. destruct (dicts w !! d); exact H. Qed.

Lemma preserves_reply_text Q text kb : preserves (on_user_state Q) (reply_text text kb).
Proof. intros w H. exact H. Qed.

Lemma preserves_state_set (Q : gmap Z State -> Prop) state upd :
  (forall m s, m !! state = Some s -> Q m -> Q (<[state := upd s]> m)) ->
  preserves (on_user_state Q) (state_set state upd).
Proof.
  intros Hupd w H. unfold state_set.
  destruct (user_state w !! state) as [s|] eqn:Hs; [|exact H].
  exact (Hupd _ _ Hs H).
Qed.

(** The two assignments [state["current_activity"] = c;
    state["current_start"] = t] taken together. *)
Lemma preserves_set_current {A} (Q : gmap Z State -> Prop) state c t (k : M A) :
  (forall m s, m !! state = Some s -> Q m ->
     Q (<[state := with_current_start t (with_current_activity c s)]> m)) ->
  preserves (on_user_state Q) k ->
  preserves (on_user_state Q)
    (let* _ := state_set state (with_current_activity c) in
     let* _ := state_set state (with_current_start t) in k).
Proof.
  intros Hupd Hk w H. unfold bind, state_set.
  destruct (user_state w !! state) as [s|] eqn:Hs; [|exact H]. cbn.
  rewrite lookup_insert_eq. cbn. apply Hk. unfold on_user_state. cbn.
  rewrite insert_insert_eq. exact (Hupd _ _ Hs H).
Qed.

Create HintDb pres.

#[local] Hint Resolve preserves_ret preserves_raise preserves_lift preserves_state_get
  preserves_activity_name preserves_dict_getitem preserves_dict_setitem
  preserves_dict_new preserves_dict_copy preserves_reply_text : pres.

Ltac pres_step :=
  match goal with
  | |- preserves _ (bind (state_set _ (with_current_activity _))
                         (fun _ => bind (state_set _ (with_current_start _)) _)) =>
      apply preserves_set_current; [|]
  | |- preserves _ (bind _ _) => apply preserves_bind; [|intros ?]
  | |- preserves _ (match ?x with _ => _ end) => destruct x
  | |- preserves _ (if ?x then _ else _) => destruct x
  | |- preserves _ _ => solve [auto with pres]
  end.

(** *** The frame: wake and sleep marks *)

Lemma same_marks_insert m0 m state s s' :
  m !! state = Some s -> marks s' = marks s ->
  same_marks m0 m -> same_marks m0 (<[state := s']> m).
Proof.
  intros Hs Hm H u. destruct (decide (u = state)) as [->|Hne].
  - rewrite lookup_insert_eq, <- H, Hs. cbn. congruence.
  - rewrite lookup_insert_ne by congruence. apply H.
Qed.

Lemma close_same_marks m0 state now :
  preserves (on_user_state (same_marks m0)) (close_current_activity state now).
Proof.
  unfold close_current_activity. repeat pres_step.
  all: intros ? ? Hs H; eapply same_marks_insert; eauto.
Qed.

Lemma start_same_marks m0 state now code :
  preserves (on_user_state (same_marks m0)) (start_act state now code).
Proof.
  unfold start_act. apply preserves_bind; [apply close_same_marks|intros closed].
  repeat pres_step.
  all: intros ? ? Hs H; eapply same_marks_insert; eauto.
Qed.

Lemma pause_same_marks m0 state now code :
  preserves (on_user_state (same_marks m0)) (pause_act state now code).
Proof.
  unfold pause_act. pres_step; [pres_step|]. pres_step.
  - apply preserves_bind; [apply close_same_marks|intros ?]. repeat pres_step.
  - repeat pres_step.
Qed.

Lemma continue_same_marks m0 state now code :
  preserves (on_user_state (same_marks m0)) (continue_act state now code).
Proof.
  unfold continue_act. repeat pres_step.
  all: intros ? ? Hs H; eapply same_marks_insert; eauto.
Qed.

(** C10.  [start_act], [pause_act], [continue_act] and
    [close_current_activity] leave the wake and sleep marks of every
    user's state as they were, from every world, at every instant and
    for every code, whether they return or raise. *)
Theorem activity_transitions_frame
    (w : World) (state : Z) (now : datetime) (code : string) (u : Z) :
  let unchanged (w' : World) :=
    wake_time <$> (user_state w' !! u) = wake_time <$> (user_state w !! u)
    /\ sleep_time <$> (user_state w' !! u) = sleep_time <$> (user_state w !! u) in
  unchanged (snd (start_act state now code w))
  /\ unchanged (snd (pause_act state now code w))
  /\ unchanged (snd (continue_act state now code w))
  /\ unchanged (snd (close_current_activity state now w)).
Proof.
  assert (Hm : forall w', on_user_state (same_marks (user_state w)) w' ->
    wake_time <$> (user_state w' !! u) = wake_time <$> (user_state w !! u)
    /\ sleep_time <$> (user_state w' !! u) = sleep_time <$> (user_state w !! u)).
  { intros w' H. specialize (H u). unfold marks in H.
    destruct (user_state w' !! u), (user_state w !! u); cbn in *; split; congruence. }
  assert (H0 : on_user_state (same_marks (user_state w)) w) by (intros ?; reflexivity).
  cbv zeta. repeat split; apply Hm.
  all: first [ by apply start_same_marks | by apply pause_same_marks
             | by apply continue_same_marks | by apply close_same_marks ].
Qed.

(** *** The invariant: an activity runs exactly when it has a start *)

Lemma all_inv_insert m state s :
  inv s -> all_inv m -> all_inv (<[state := s]> m).
Proof.
  intros Hs Hm u s'. destruct (decide (u = state)) as [->|Hne].
  - rewrite lookup_insert_eq. intros [= <-]. exact Hs.
  - rewrite lookup_insert_ne by congruence. apply Hm.
Qed.

Ltac pres_inv :=
  repeat first
    [ pres_step
    | apply preserves_state_set
    | match goal with
      | |- forall (m : gmap Z State) (s : State), _ =>
          let Hs := fresh "Hs" in
          let H := fresh "H" in
          intros ? ? Hs H; apply all_inv_insert;
          [ first [ done | exact (H _ _ Hs) ] | exact H ]
      end ].

Lemma get_user_state_inv user_id :
  preserves (on_user_state all_inv) (get_user_state user_id).
Proof.
  intros w H. unfold get_user_state.
  destruct (user_state w !! user_id); [exact H|].
  cbn. apply all_inv_insert; [done|exact H].
Qed.

Lemma close_inv state now :
  preserves (on_user_state all_inv) (close_current_activity state now).
Proof. unfold close_current_activity. pres_inv. Qed.

Lemma start_inv state now code :
  preserves (on_user_state all_inv) (start_act state now code).
Proof.
  unfold start_act. apply preserves_bind; [apply close_inv|intros closed]. pres_inv.
Qed.

Lemma pause_inv state now code :
  preserves (on_user_state all_inv) (pause_act state now code).
Proof.
  unfold pause_act. pres_step; [pres_step|]. pres_step.
  - apply preserves_bind; [apply close_inv|intros ?]. pres_inv.
  - pres_inv.
Qed.

Lemma continue_inv state now code :
  preserves (on_user_state all_inv) (continue_act state now code).
Proof. unfold continue_act. pres_inv. Qed.

Lemma report_inv state now :
  preserves (on_user_state all_inv) (build_daily_report_text state now).
Proof. unfold build_daily_report_text. pres_inv. Qed.

Lemma woke_up_inv state now :
  preserves (on_user_state all_inv) (on_woke_up state now).
Proof. unfold on_woke_up. pres_inv. Qed.

Lemma save_inv user_id day_date alive_td l :
  preserves (on_user_state all_inv) (save_daily_stats_to_db user_id day_date alive_td l).
Proof.
  unfold save_daily_stats_to_db. pres_inv. intros w H. exact H.
Qed.

Lemma sleep_time_inv user_id state now :
  preserves (on_user_state all_inv) (on_sleep_time user_id state now).
Proof.
  unfold on_sleep_time. pres_step; [pres_step|]. pres_step; [|pres_inv].
  pres_step; [pres_inv|]. 
  apply preserves_bind; [apply close_inv|intros closed].
  pres_step; [pres_inv|]. pres_step; [pres_inv|].
  pres_step; [pres_inv|]. pres_step; [pres_inv|].
  pres_step; [|pres_inv]. pres_step; [|pres_inv].
  pres_step; [pres_inv|]. pres_step; [pres_inv|].
  pres_step; [apply save_inv|].
  pres_step; [apply report_inv|]. pres_inv.
Qed.

Lemma callback_handler_inv user_id data now :
  preserves (on_user_state all_inv) (callback_handler user_id data now).
Proof.
  unfold callback_handler, start_from_menu, build_activity_keyboard,
    build_paused_keyboard, code_of.
  apply preserves_bind; [apply get_user_state_inv|intros state].
  repeat match goal with
         | |- preserves _ (if ?x then _ else _) => destruct x
         end.
  all: repeat first
         [ apply woke_up_inv | apply sleep_time_inv | apply report_inv
         | apply start_inv | apply pause_inv | apply continue_inv
         | pres_step ].
Qed.

(** C6.  "[current_activity] is [None] iff [current_start] is [None]"
    holds of every state of the initial world and of the state
    [get_user_state] creates, and each operation (the whole button
    handler, wake-up, sleep, close, start, pause, continue, the daily
    report) keeps it for every user, whether it returns or raises. *)
Theorem activity_iff_start_invariant :
  all_inv (user_state initial_world)
  /\ (forall w user_id,
        user_state w !! user_id = None ->
        exists s, user_state (snd (get_user_state user_id w)) !! user_id = Some s
                  /\ current_activity s = None /\ current_start s = None)
  /\ (forall w user_id state data code now,
        all_inv (user_state w) ->
        all_inv (user_state (snd (callback_handler user_id data now w)))
        /\ all_inv (user_state (snd (on_woke_up state now w)))
        /\ all_inv (user_state (snd (on_sleep_time user_id state now w)))
        /\ all_inv (user_state (snd (close_current_activity state now w)))
        /\ all_inv (user_state (snd (start_act state now code w)))
        /\ all_inv (user_state (snd (pause_act state now code w)))
        /\ all_inv (user_state (snd (continue_act state now code w)))
        /\ all_inv (user_state (snd (build_daily_report_text state now w)))).
Proof.
  split; [intros u s H; cbn in H; rewrite lookup_empty in H; discriminate|].
  split.
  - intros w user_id Hnone. unfold get_user_state. rewrite Hnone. cbn.
    rewrite lookup_insert_eq. eauto.
  - intros w user_id state data code now H.
    split; [exact (callback_handler_inv _ _ _ w H)|].
    split; [exact (woke_up_inv _ _ w H)|].
    split; [exact (sleep_time_inv _ _ _ w H)|].
    split; [exact (close_inv _ _ w H)|].
    split; [exact (start_inv _ _ _ w H)|].
    split; [exact (pause_inv _ _ _ w H)|].
    split; [exact (continue_inv _ _ _ w H)|].
    exact (report_inv _ _ w H).
Qed.

(** ** Days in good order, and what the transitions do to them *)

Lemma kind_cases (P : string -> Prop) :
  P "contrib" -> P "soft" -> P "hands" -> P "coding" ->
  forall k, k ∈ KINDS -> P k.
Proof.
  intros H1 H2 H3 H4 k Hk. unfold KINDS in Hk.
  repeat (apply elem_of_cons in Hk; destruct Hk as [->|Hk]; [assumption|]).
  by apply elem_of_nil in Hk.
Qed.

Lemma kind_nonempty k : k ∈ KINDS -> String.eqb k "" = false.
Proof. revert k. apply kind_cases; reflexivity. Qed.

Lemma activity_name_kind k w : k ∈ KINDS -> activity_name k w = (Ret (name_of k), w).
Proof. revert k. apply kind_cases; reflexivity. Qed.

Lemma closing_wf s d :
  day_wf s d -> fst <$> closing s = current_activity s.
Proof.
  intros (_ & Hrun & Hidle). unfold closing.
  destruct (current_activity s) as [c|] eqn:Hc; [|reflexivity].
  destruct (Hrun c eq_refl) as [Hk [t0 ->]]. rewrite (kind_nonempty _ Hk). reflexivity.
Qed.

Lemma closing_kind s d c t0 :
  day_wf s d -> closing s = Some (c, t0) ->
  c ∈ KINDS /\ current_activity s = Some c /\ current_start s = Some t0.
Proof.
  intros (_ & Hrun & _). unfold closing.
  destruct (current_activity s) as [c'|] eqn:Hc; [|discriminate].
  destruct (current_start s) as [t|]; [|discriminate].
  destruct (String.eqb c' ""); [discriminate|]. intros [= <- <-].
  split; [apply (Hrun c' eq_refl)|done].
Qed.

Lemma closing_none s d : day_wf s d -> closing s = None -> stopped s = s.
Proof.
  intros Hwf Hcl. pose proof (closing_wf _ _ Hwf) as H. rewrite Hcl in H. cbn in H.
  destruct Hwf as (_ & _ & Hidle). symmetry in H. specialize (Hidle H).
  destruct s; cbn in *; subst; reflexivity.
Qed.

Lemma close_ok w state s d now :
  has_day w state s d -> day_wf s d ->
  close_current_activity state now w
  = (Ret (current_activity s), put_day state (stopped s) (credit s d now) w).
Proof.
  intros Hday Hwf. rewrite (close_run _ _ _ _ _ Hday), <- (closing_wf _ _ Hwf).
  unfold credit. destruct (closing s) as [[c t0]|] eqn:Hcl.
  - destruct (closing_kind _ _ _ _ Hwf Hcl) as (Hk & _).
    destruct (proj1 Hwf c Hk) as [v ->]. reflexivity.
  - rewrite (closing_none _ _ Hwf Hcl), (put_day_same _ _ _ _ Hday). reflexivity.
Qed.

Lemma start_ok w state s d now code :
  has_day w state s d -> day_wf s d -> code ∈ KINDS ->
  start_act state now code w
  = (Ret (start_message code now (current_activity s)),
     put_day state (running s code now) (credit s d now) w).
Proof.
  intros Hday Hwf Hcode. unfold start_act. unfold bind at 1.
  rewrite (close_ok _ _ _ _ _ Hday Hwf).
  destruct (has_day_put_day state (stopped s) (credit s d now) w) as [Hs' Hd'].
  unfold start_message.
  destruct (current_activity s) as [c|] eqn:Hc.
  - destruct (proj1 (proj2 Hwf) c Hc) as [Hk _].
    rewrite (kind_nonempty _ Hk). run.
    rewrite (activity_name_kind _ _ Hcode). cbn.
    rewrite (activity_name_kind _ _ Hk). reflexivity.
  - run. rewrite (activity_name_kind _ _ Hcode). reflexivity.
Qed.

Lemma pause_ok w state s d now code :
  has_day w state s d -> day_wf s d -> code ∈ KINDS ->
  pause_act state now code w
  = if bool_decide (current_activity s = Some code)
    then (Ret (pause_message code now), put_day state (stopped s) (credit s d now) w)
    else (Ret (name_of code ++ " is not active."), w).
Proof.
  intros Hday Hwf Hcode. unfold pause_act. unfold bind at 1, state_get.
  rewrite (proj1 Hday). destruct (bool_decide (current_activity s = Some code)).
  - unfold bind at 1. rewrite (close_ok _ _ _ _ _ Hday Hwf).
    unfold bind. rewrite (activity_name_kind _ _ Hcode). reflexivity.
  - unfold bind. rewrite (activity_name_kind _ _ Hcode). reflexivity.
Qed.

Lemma continue_ok w state s d now code :
  has_day w state s d -> code ∈ KINDS ->
  continue_act state now code w
  = (Ret (continue_message code now), put_day state (running s code now) d w).
Proof.
  intros [Hs Hd] Hcode. unfold continue_act. run.
  rewrite (activity_name_kind _ _ Hcode). cbn. unfold put_day. cbn.
  rewrite (insert_id _ _ _ Hd). reflexivity.
Qed.

Lemma credit_kinds s d now k :
  is_Some (d !! k) -> is_Some (credit s d now !! k).
Proof.
  intros Hk. unfold credit. destruct (closing s) as [[c t0]|]; [|exact Hk].
  destruct (d !! c) eqn:Hc; [|exact Hk].
  destruct (decide (c = k)) as [->|Hne].
  - rewrite lookup_insert_eq. eauto.
  - rewrite lookup_insert_ne by exact Hne. exact Hk.
Qed.

Lemma day_wf_stopped s d now : day_wf s d -> day_wf (stopped s) (credit s d now).
Proof.
  intros (Hk & _ & _). split; [|split]; cbn; try done.
  intros k Hin. apply credit_kinds, Hk, Hin.
Qed.

Lemma day_wf_running s (d' : gmap string Z) code now :
  (forall k, k ∈ KINDS -> is_Some (d' !! k)) -> code ∈ KINDS ->
  day_wf (running s code now) d'.
Proof.
  intros Hk Hcode. split; [exact Hk|]. split; cbn; [|done].
  intros c [= <-]. eauto.
Qed.

Lemma fresh_day_wf s d : fresh_day s d -> day_wf s d.
Proof.
  intros (Hc & Ht & Hz). split; [|split].
  - intros k Hk. rewrite (Hz k Hk). eauto.
  - intros c Hc'. congruence.
  - intros _. exact Ht.
Qed.

(** ** Time accounting *)

Lemma sum_totals_insert d c v x :
  c ∈ KINDS -> d !! c = Some v ->
  sum_totals (<[c := v + x]> d) = sum_totals d + x.
Proof.
  intros Hc. revert c Hc v. unfold sum_totals.
  apply (kind_cases (fun c => forall v, d !! c = Some v -> _)); intros v Hv; cbn;
    rewrite ?lookup_insert_eq, ?lookup_insert_ne by done; rewrite Hv; cbn; lia.
Qed.

Lemma sum_totals_credit s d now :
  day_wf s d -> sum_totals (credit s d now) = sum_totals d + running_elapsed s now.
Proof.
  intros Hwf. unfold credit, running_elapsed.
  destruct (closing s) as [[c t0]|] eqn:Hcl; [|lia].
  destruct (closing_kind _ _ _ _ Hwf Hcl) as (Hk & _).
  destruct (proj1 Hwf c Hk) as [v Hv]. rewrite Hv.
  apply sum_totals_insert; assumption.
Qed.

Lemma tracked_has_day w state s d now :
  has_day w state s d -> tracked w state now = Some (sum_totals d + running_elapsed s now).
Proof. intros [Hs Hd]. unfold tracked. rewrite Hs, Hd. reflexivity. Qed.

Lemma closing_running s code now :
  code ∈ KINDS -> closing (running s code now) = Some (code, now).
Proof. intros Hk. unfold closing. cbn. rewrite (kind_nonempty _ Hk). reflexivity. Qed.

Lemma fresh_day_credit s d now : fresh_day s d -> credit s d now = d.
Proof. intros (Hc & _). unfold credit, closing. rewrite Hc. reflexivity. Qed.

(** C2.  From a fresh day, starting [A] at [t0], starting [B] at [t1]
    and pausing [B] at [t2] (distinct kinds, [t0 <= t1 <= t2]) leaves
    [totals[A] = t1 - t0], [totals[B] = t2 - t1], the other totals zero
    and their sum [t2 - t0]; and [start_act] succeeds on every day in
    good order, whatever its wake time, its message naming the activity
    it closed, if any. *)
Theorem start_switches_activity :
  (forall w state s d A B t0 t1 t2,
      has_day w state s d -> fresh_day s d ->
      A ∈ KINDS -> B ∈ KINDS -> A <> B -> t0 <= t1 -> t1 <= t2 ->
      exists w' d',
        switch_scenario state A B t0 t1 t2 w
        = (Ret (start_message A t0 None, start_message B t1 (Some A),
                pause_message B t2), w')
        /\ has_day w' state (stopped s) d'
        /\ d' !! A = Some (t1 - t0) /\ d' !! B = Some (t2 - t1)
        /\ (forall k, k ∈ KINDS -> k <> A -> k <> B -> d' !! k = Some 0)
        /\ sum_totals d' = t2 - t0)
  /\ (forall w state s d code now,
        has_day w state s d -> day_wf s d -> code ∈ KINDS ->
        exists w',
          start_act state now code w
          = (Ret (start_message code now (current_activity s)), w')
          /\ has_day w' state (running s code now) (credit s d now)).
Proof.
  split.
  - intros w state s d A B t0 t1 t2 Hday Hfresh HA HB Hne H01 H12.
    pose proof (fresh_day_wf _ _ Hfresh) as Hwf.
    destruct Hfresh as (Hc & Ht & Hz).
    set (d1 := <[A := t1 - t0]> d). set (d2 := <[B := t2 - t1]> d1).
    exists (put_day state (stopped s) d2 w), d2.
    assert (H1 : credit s d t0 = d) by (apply fresh_day_credit; done).
    assert (Hwf1 : day_wf (running s A t0) d).
    { apply day_wf_running; [apply Hwf|exact HA]. }
    assert (H2 : credit (running s A t0) d t1 = d1).
    { unfold credit. rewrite (closing_running _ _ _ HA), (Hz A HA), clamp_max.
      unfold d1. f_equal. lia. }
    assert (Hk1 : forall k, k ∈ KINDS -> is_Some (d1 !! k)).
    { intros k Hk. rewrite <- H2. apply credit_kinds, Hwf, Hk. }
    assert (Hwf2 : day_wf (running (running s A t0) B t1) d1).
    { apply day_wf_running; [exact Hk1|exact HB]. }
    assert (H3 : credit (running (running s A t0) B t1) d1 t2 = d2).
    { unfold credit. rewrite (closing_running _ _ _ HB). unfold d1 at 1.
      rewrite lookup_insert_ne by exact Hne. rewrite (Hz B HB), clamp_max.
      unfold d2. f_equal. lia. }
    split; [|split; [apply has_day_put_day|]].
    + unfold switch_scenario. unfold bind at 1.
      rewrite (start_ok _ _ _ _ _ _ Hday Hwf HA), Hc, H1.
      unfold bind at 1.
      rewrite (start_ok _ _ _ _ _ _ (has_day_put_day _ _ _ _) Hwf1 HB), H2.
      rewrite put_day_put_day by reflexivity.
      unfold bind at 1.
      rewrite (pause_ok _ _ _ _ _ _ (has_day_put_day _ _ _ _) Hwf2 HB), H3.
      cbn [current_activity running]. rewrite bool_decide_true by reflexivity.
      rewrite put_day_put_day by reflexivity. reflexivity.
    + split; [|split; [|split]].
      * unfold d2, d1. rewrite lookup_insert_ne by congruence. apply lookup_insert_eq.
      * apply lookup_insert_eq.
      * intros k Hk HkA HkB. unfold d2, d1.
        rewrite !lookup_insert_ne by congruence. apply Hz, Hk.
      * rewrite <- H3, sum_totals_credit by exact Hwf2.
        rewrite <- H2, sum_totals_credit by exact Hwf1.
        unfold running_elapsed. rewrite (closing_running _ _ _ HB).
        rewrite (closing_running _ _ _ HA), !clamp_max.
        assert (sum_totals d = 0) as ->; [|lia].
        unfold sum_totals. cbn.
        rewrite !Hz by (unfold KINDS; repeat constructor). reflexivity.
  - intros w state s d code now Hday Hwf Hcode.
    eexists. split; [apply (start_ok _ _ _ _ _ _ Hday Hwf Hcode)|].
    apply has_day_put_day.
Qed.

(** ** Sequences of start, pause and resume *)



Lemma running_elapsed_nonneg s t : 0 <= running_elapsed s t.
Proof.
  unfold running_elapsed. destruct (closing s) as [[c t0]|]; [|lia].
  rewrite clamp_max. lia.
Qed.

Arguments sum_totals : simpl never.
Arguments running_elapsed : simpl never.

Lemma running_elapsed_closing s c t0 t :
  closing s = Some (c, t0) -> running_elapsed s t = clamp (t - t0).
Proof. intros H. unfold running_elapsed. rewrite H. reflexivity. Qed.






(** ** The daily report *)

Lemma lookup_insert_fresh {A} (m : gmap positive A) l x y :
  m !! l = Some x -> <[fresh (dom m) := y]> m !! l = Some x.
Proof.
  intros Hl. rewrite lookup_insert_ne; [exact Hl|].
  intros Heq. apply (is_fresh (dom m)). rewrite Heq. apply elem_of_dom. eauto.
Qed.

Lemma has_day_with_new_dict w state s d m :
  has_day w state s d -> has_day (with_new_dict m w) state s d.
Proof. intros [Hs Hd]. split; [exact Hs|]. cbn. apply lookup_insert_fresh, Hd. Qed.

Lemma report_ok w state s d wk now :
  has_day w state s d -> day_wf s d -> wake_time s = Some wk ->
  build_daily_report_text state now w
  = (Ret (daily_text s (credit s d now) wk now), with_new_dict (credit s d now) w).
Proof.
  intros [Hs Hd] Hwf Hwk. unfold build_daily_report_text. run. rewrite Hwk. run.
  assert (Hshown : forall m : gmap string Z,
    (forall k, k ∈ KINDS -> is_Some (m !! k)) ->
    exists a b c e, m !! "contrib" = Some a /\ m !! "soft" = Some b
                    /\ m !! "hands" = Some c /\ m !! "coding" = Some e).
  { intros m Hm.
    destruct (Hm "contrib") as [a Ha]; [unfold KINDS; repeat constructor|].
    destruct (Hm "soft") as [b Hb]; [unfold KINDS; repeat constructor|].
    destruct (Hm "hands") as [c Hc]; [unfold KINDS; repeat constructor|].
    destruct (Hm "coding") as [e He]; [unfold KINDS; repeat constructor|].
    eauto 10. }
  destruct (Hshown (credit s d now)) as (a & b & c & e & Ha & Hb & Hc & He).
  { intros k Hk. apply credit_kinds, Hwf, Hk. }
  unfold daily_text, with_new_dict. rewrite Ha, Hb, Hc, He.
  revert Ha Hb Hc He. unfold credit.
  destruct (closing s) as [[c0 t0]|] eqn:Hcl.
  - destruct (closing_kind _ _ _ _ Hwf Hcl) as (Hk & Hcur & Hstart).
    rewrite Hcur, Hstart, (kind_nonempty _ Hk).
    destruct (proj1 Hwf c0 Hk) as [v Hv]. rewrite Hv. intros Ha Hb Hc He. run.
    rewrite Hcur, (kind_nonempty _ Hk). cbn beta.
    rewrite (activity_name_kind _ _ Hk). run. rewrite Hstart. reflexivity.
  - pose proof (closing_wf _ _ Hwf) as Hcur. rewrite Hcl in Hcur. cbn in Hcur.
    rewrite <- Hcur. intros Ha Hb Hc He. run. rewrite <- Hcur. reflexivity.
Qed.

(** *** The report reads, and writes only its own copy *)

Lemma frame_refl w : frame w w.
Proof. repeat split. auto. Qed.

Lemma preserves_dict_getitem_any P d k : preserves P (dict_getitem d k).
Proof.
  intros w H. unfold dict_getitem.
  destruct (dicts w !! d) as [m|]; [destruct (m !! k)|]; exact H.
Qed.

Lemma frame_dict_setitem w0 l k v :
  dicts w0 !! l = None -> preserves (frame w0) (dict_setitem l k v).
Proof.
  intros Hl w (Hu & Hd & Hs & Hm). unfold dict_setitem.
  destruct (dicts w !! l) as [m|] eqn:Hwl; [|done]. cbn.
  repeat split; try assumption. cbn. intros l' x Hx.
  rewrite lookup_insert_ne by congruence. apply Hm, Hx.
Qed.

Lemma frame_dict_copy_bind {A} w0 d (k : positive -> M A) :
  (forall l, dicts w0 !! l = None -> preserves (frame w0) (k l)) ->
  preserves (frame w0) (bind (dict_copy d) k).
Proof.
  intros Hk w (Hu & Hd & Hs & Hm). unfold bind, dict_copy, dict_new.
  destruct (dicts w !! d) as [m|] eqn:Hwd; [|done]. cbn.
  apply Hk.
  - destruct (dicts w0 !! fresh (dom (dicts w))) as [x|] eqn:Hx; [|reflexivity].
    exfalso. apply (is_fresh (dom (dicts w))). apply elem_of_dom.
    rewrite (Hm _ _ Hx). eauto.
  - repeat split; try assumption. cbn. intros l x Hx.
    apply lookup_insert_fresh, Hm, Hx.
Qed.

Lemma report_frame w0 state now :
  preserves (frame w0) (build_daily_report_text state now).
Proof.
  unfold build_daily_report_text.
  repeat first
    [ apply frame_dict_copy_bind; intros ? ?
    | apply frame_dict_setitem; assumption
    | apply preserves_dict_getitem_any
    | pres_step ].
Qed.

Lemma report_no_day w state now :
  (forall s d, ~ has_day w state s d) ->
  snd (build_daily_report_text state now w) = w.
Proof.
  intros Hno. unfold build_daily_report_text.
  destruct (user_state w !! state) as [s|] eqn:Hs; run; [|done].
  destruct (wake_time s) as [wk|]; run; [|done].
  destruct (dicts w !! totals s) as [d|] eqn:Hd; run; [|done].
  exfalso. apply (Hno s d). split; assumption.
Qed.

Ltac shown_step m k :=
  destruct (m !! k) eqn:?; run; [|reflexivity].

Lemma report_outcome_same w w' state s d now :
  has_day w state s d -> has_day w' state s d ->
  fst (build_daily_report_text state now w)
  = fst (build_daily_report_text state now w').
Proof.
  intros [Hs Hd] [Hs' Hd']. unfold build_daily_report_text. run.
  destruct (wake_time s) as [wk|]; run; [|reflexivity].
  destruct (current_activity s) as [c|] eqn:Hc.
  - destruct (current_start s) as [t0|] eqn:Ht.
    + destruct (String.eqb c "") eqn:He; run.
      * shown_step d "contrib". shown_step d "soft".
        shown_step d "hands". shown_step d "coding".
        rewrite Hc. cbn. rewrite He. reflexivity.
      * destruct (d !! c) as [v|] eqn:Hv; run; [|reflexivity].
        remember (<[c := v + clamp (now - t0)]> d) as m.
        shown_step m "contrib". shown_step m "soft".
        shown_step m "hands". shown_step m "coding".
        rewrite Hc. cbn. rewrite He. cbn. unfold activity_name.
        destruct (ACTIVITY_NAMES !! c); run; [|reflexivity].
        rewrite Ht. reflexivity.
    + shown_step d "contrib". shown_step d "soft".
      shown_step d "hands". shown_step d "coding".
      rewrite Hc. cbn. destruct (String.eqb c "") eqn:He; [reflexivity|].
      cbn. unfold activity_name.
      destruct (ACTIVITY_NAMES !! c); run; [|reflexivity].
      rewrite Ht. reflexivity.
  - shown_step d "contrib". shown_step d "soft".
    shown_step d "hands". shown_step d "coding".
    rewrite Hc. reflexivity.
Qed.

(** C4.  [build_daily_report_text] is a read: run twice on the same
    state and instant it gives the same outcome, and it leaves the user
    states, every existing dictionary (so the totals), the table and the
    messages as they were; on a day in good order the only new object is
    its working copy, the totals credited with the running activity's
    elapsed time, from which the text is rendered. *)
Theorem daily_report_is_a_pure_read (w : World) (state : Z) (now : datetime) :
  let r1 := build_daily_report_text state now w in
  let r2 := build_daily_report_text state now (snd r1) in
  fst r2 = fst r1
  /\ user_state (snd r1) = user_state w
  /\ (forall l x, dicts w !! l = Some x -> dicts (snd r1) !! l = Some x)
  /\ daily_stats (snd r1) = daily_stats w
  /\ sent (snd r1) = sent w
  /\ (forall s d wk,
        has_day w state s d -> day_wf s d -> wake_time s = Some wk ->
        r1 = (Ret (daily_text s (credit s d now) wk now),
              with_new_dict (credit s d now) w)
        /\ has_day (snd r1) state s d).
Proof.
  intros r1 r2.
  destruct (report_frame w state now w (frame_refl w)) as (Hu & Hd & Hs & Hm).
  fold r1 in Hu, Hd, Hs, Hm.
  assert (Hkeep : forall s d, has_day w state s d -> has_day (snd r1) state s d).
  { intros s d [H1 H2]. split; [rewrite Hu; exact H1|apply Hm, H2]. }
  split; [|split; [exact Hu|split; [exact Hm|split; [exact Hd|split; [exact Hs|]]]]].
  - destruct (user_state w !! state) as [s|] eqn:Hst.
    + destruct (dicts w !! totals s) as [d|] eqn:Hdt.
      * apply (report_outcome_same (snd r1) w state s d now).
        -- apply Hkeep. split; assumption.
        -- split; assumption.
      * unfold r2. replace (snd r1) with w; [reflexivity|].
        symmetry. apply report_no_day. intros s' d' [H1 H2]. congruence.
    + unfold r2. replace (snd r1) with w; [reflexivity|].
      symmetry. apply report_no_day. intros s' d' [H1 H2]. congruence.
  - intros s d wk Hday Hwf Hwk. split; [|apply Hkeep, Hday].
    apply (report_ok _ _ _ _ _ _ Hday Hwf Hwk).
Qed.

(** ** The end of the day *)

Lemma kinds_shown (m : gmap string Z) :
  (forall k, k ∈ KINDS -> is_Some (m !! k)) ->
  exists a b c e, m !! "contrib" = Some a /\ m !! "soft" = Some b
                  /\ m !! "hands" = Some c /\ m !! "coding" = Some e.
Proof.
  intros Hm.
  destruct (Hm "contrib") as [a Ha]; [unfold KINDS; repeat constructor|].
  destruct (Hm "soft") as [b Hb]; [unfold KINDS; repeat constructor|].
  destruct (Hm "hands") as [c Hc]; [unfold KINDS; repeat constructor|].
  destruct (Hm "coding") as [e He]; [unfold KINDS; repeat constructor|].
  eauto 10.
Qed.

Lemma save_ok w user_id day_date alive_td l (m : gmap string Z) :
  dicts w !! l = Some m ->
  (forall k, k ∈ KINDS -> is_Some (m !! k)) ->
  save_daily_stats_to_db user_id day_date alive_td l w
  = (Ret tt,
     with_daily_stats
       (insert_or_replace
          (mkRow user_id (isoformat day_date) (int_total_seconds alive_td)
             (int_total_seconds (default 0 (m !! "contrib")))
             (int_total_seconds (default 0 (m !! "hands")))
             (int_total_seconds (default 0 (m !! "soft")))
             (int_total_seconds (default 0 (m !! "coding"))))
          (daily_stats w)) w).
Proof.
  intros Hl Hm. destruct (kinds_shown m Hm) as (a & b & c & e & Ha & Hb & Hc & He).
  unfold save_daily_stats_to_db. run. reflexivity.
Qed.

Lemma sleep_no_day w user_id state s now :
  user_state w !! state = Some s -> wake_time s = None ->
  on_sleep_time user_id state now w
  = (Ret tt, with_sent (sent w ++ [(NO_ACTIVE_DAY, Some build_main_menu_keyboard)])%list w).
Proof. intros Hs Hwk. unfold on_sleep_time. run. rewrite Hwk. reflexivity. Qed.

Lemma bind_run {A B} (m : M A) (k : A -> M B) w a w' r :
  m w = (Ret a, w') -> k a w' = r -> bind m k w = r.
Proof. intros H1 H2. unfold bind. rewrite H1. exact H2. Qed.

Lemma state_get_run {A} w state s (f : State -> A) :
  user_state w !! state = Some s -> state_get state f w = (Ret (f s), w).
Proof. intros Hs. unfold state_get. rewrite Hs. reflexivity. Qed.

Lemma dict_copy_run w l m :
  dicts w !! l = Some m ->
  dict_copy l w = (Ret (fresh (dom (dicts w))), with_new_dict m w).
Proof. intros Hl. unfold dict_copy. rewrite Hl. reflexivity. Qed.

Lemma has_day_with_sent w state s d v :
  has_day w state s d -> has_day (with_sent v w) state s d.
Proof. intros H. exact H. Qed.

Lemma has_day_with_daily_stats w state s d v :
  has_day w state s d -> has_day (with_daily_stats v w) state s d.
Proof. intros H. exact H. Qed.

Lemma sleep_message_run w s d now :
  day_wf s d ->
  match current_activity s with
  | Some c =>
      if String.eqb c "" then ret ("😴 Sleep time at " ++ strftime_HM now ++ ".")
      else
        let* name := activity_name c in
        ret (("😴 Sleep time at " ++ strftime_HM now ++ ".")
             ++ nl ++ "Auto pause: " ++ name ++ ".")
  | None => ret ("😴 Sleep time at " ++ strftime_HM now ++ ".")
  end w = (Ret (sleep_message now (current_activity s)), w).
Proof.
  intros Hwf. unfold sleep_message.
  destruct (current_activity s) as [c|] eqn:Hc; [|reflexivity].
  destruct (proj1 (proj2 Hwf) c Hc) as [Hk _]. rewrite (kind_nonempty _ Hk).
  unfold bind. rewrite (activity_name_kind _ _ Hk). reflexivity.
Qed.

(** The second half of the sleep branch: save the day, send the
    report. *)
Lemma sleep_save_and_report w user_id state s d wk now :
  has_day w state s d -> day_wf s d ->
  wake_time s = Some wk -> sleep_time s = Some now -> closing s = None ->
  exists w',
    (let* wake := state_get state wake_time in
     let* end_ := state_get state sleep_time in
     match wake, end_ with
     | Some wake, Some end_ =>
         let alive := clamp (end_ - wake) in
         let* tot := state_get state totals in
         let* totals_copy := dict_copy tot in
         let day_date := date_of wake in
         let* _ := save_daily_stats_to_db user_id day_date alive totals_copy in
         let* report := build_daily_report_text state now in
         reply_text report (Some build_main_menu_keyboard)
     | _, _ => raise TypeError
     end) w = (Ret tt, w')
    /\ has_day w' state s d
    /\ sent w' = (sent w ++ [(daily_text s d wk now, Some build_main_menu_keyboard)])%list
    /\ daily_stats w' = insert_or_replace (day_row user_id wk now d) (daily_stats w).
Proof.
  intros Hday Hwf Hwk Hsl Hcl. pose proof Hday as [Hs Hd].
  assert (Hcredit : credit s d now = d) by (unfold credit; rewrite Hcl; reflexivity).
  pose proof (has_day_with_new_dict w state s d d Hday) as Hday4.
  assert (Hl4 : dicts (with_new_dict d w) !! fresh (dom (dicts w)) = Some d).
  { unfold with_new_dict. cbn [dicts with_dicts]. apply lookup_insert_eq. }
  pose proof (save_ok _ user_id (date_of wk) (clamp (now - wk)) _ d Hl4 (proj1 Hwf))
    as Hsave.
  pose proof (has_day_with_daily_stats _ state s d
                (insert_or_replace (day_row user_id wk now d)
                   (daily_stats (with_new_dict d w))) Hday4) as Hday5.
  pose proof (report_ok _ _ _ _ wk now Hday5 Hwf Hwk) as Hrep.
  rewrite Hcredit in Hrep.
  eexists. split; [|split; [|split]].
  - eapply bind_run; [apply (state_get_run _ _ _ _ Hs)|].
    eapply bind_run; [apply (state_get_run _ _ _ _ Hs)|].
    rewrite Hwk, Hsl.
    eapply bind_run; [apply (state_get_run _ _ _ _ Hs)|].
    eapply bind_run; [apply (dict_copy_run _ _ _ Hd)|].
    eapply bind_run; [exact Hsave|].
    eapply bind_run; [exact Hrep|].
    reflexivity.
  - apply has_day_with_sent, has_day_with_new_dict. exact Hday5.
  - reflexivity.
  - reflexivity.
Qed.

Lemma sleep_ok w user_id state s d wk now :
  has_day w state s d -> day_wf s d -> wake_time s = Some wk ->
  let s' := mkState (Some wk) (Some now) None None (totals s) in
  let d' := credit s d now in
  exists w',
    on_sleep_time user_id state now w = (Ret tt, w')
    /\ has_day w' state s' d'
    /\ sent w'
       = (sent w ++
          [ (sleep_message now (current_activity s), Some build_main_menu_keyboard);
            (daily_text s' d' wk now, Some build_main_menu_keyboard) ])%list
    /\ daily_stats w' = insert_or_replace (day_row user_id wk now d') (daily_stats w).
Proof.
  intros Hday Hwf Hwk s' d'. pose proof Hday as [Hs Hd].
  assert (Hday1 : has_day
            (with_user_state (<[state := with_sleep_time (Some now) s]> (user_state w)) w)
            state (with_sleep_time (Some now) s) d).
  { split; [apply lookup_insert_eq|exact Hd]. }
  assert (Hwf1 : day_wf (with_sleep_time (Some now) s) d) by exact Hwf.
  pose proof (close_ok _ _ _ _ now Hday1 Hwf1) as Hclose.
  assert (Hs'eq : stopped (with_sleep_time (Some now) s) = s').
  { unfold stopped, s'. cbn. rewrite Hwk. reflexivity. }
  rewrite Hs'eq in Hclose.
  change (credit (with_sleep_time (Some now) s) d now) with d' in Hclose.
  change (current_activity (with_sleep_time (Some now) s))
    with (current_activity s) in Hclose.
  assert (Hwf2 : day_wf s' d').
  { split; [intros k Hk; apply credit_kinds, Hwf, Hk|].
    split; [discriminate|reflexivity]. }
  match type of Hclose with _ = (_, ?w2) =>
    pose proof (has_day_put_day state s' d'
                  (with_user_state
                     (<[state := with_sleep_time (Some now) s]> (user_state w)) w))
      as Hday2;
    pose proof (has_day_with_sent _ state s' d'
                  (sent w2 ++ [(sleep_message now (current_activity s),
                                Some build_main_menu_keyboard)])%list Hday2) as Hday3
  end.
  destruct (sleep_save_and_report _ user_id state s' d' wk now Hday3 Hwf2
              eq_refl eq_refl eq_refl) as (w' & Hrun & Hday' & Hsent & Hstats).
  exists w'. split; [|split; [exact Hday'|split]].
  - unfold on_sleep_time.
    eapply bind_run; [apply (state_get_run _ _ _ _ Hs)|]. rewrite Hwk.
    eapply bind_run; [unfold state_set; rewrite Hs; reflexivity|].
    eapply bind_run; [exact Hclose|].
    eapply bind_run; [apply (sleep_message_run _ _ _ _ Hwf)|].
    eapply bind_run; [reflexivity|].
    exact Hrun.
  - rewrite Hsent. cbn [sent with_sent put_day with_user_state].
    rewrite <- app_assoc. reflexivity.
  - rewrite Hstats. reflexivity.
Qed.

(** C5.  The sleep button answers that no day is active exactly when
    [wake_time] is [None], and then changes neither states, dictionaries
    nor table; otherwise it succeeds, sets [sleep_time] to [now], closes
    the running activity (crediting it) and names it in its message. *)
Theorem end_day_spec
    (w : World) (user_id state : Z) (s : State) (d : gmap string Z) (now : datetime) :
  has_day w state s d -> day_wf s d ->
  let r := on_sleep_time user_id state now w in
  (wake_time s = None <-> signals_no_active_day w (snd r))
  /\ (wake_time s = None ->
      fst r = Ret tt /\ user_state (snd r) = user_state w
      /\ dicts (snd r) = dicts w /\ daily_stats (snd r) = daily_stats w)
  /\ (forall wk, wake_time s = Some wk ->
      fst r = Ret tt
      /\ has_day (snd r) state
           (mkState (Some wk) (Some now) None None (totals s)) (credit s d now)
      /\ exists report,
           sent (snd r)
           = (sent w ++
              [ (sleep_message now (current_activity s), Some build_main_menu_keyboard);
                (report, Some build_main_menu_keyboard) ])%list).
Proof.
  intros Hday Hwf r. subst r.
  pose proof (fun Hwk => sleep_no_day w user_id state s now (proj1 Hday) Hwk) as Hnone.
  split; [|split].
  - split.
    + intros Hwk. rewrite (Hnone Hwk). reflexivity.
    + intros Hsig. destruct (wake_time s) as [wk|] eqn:Hwk; [|reflexivity].
      destruct (sleep_ok w user_id state s d wk now Hday Hwf Hwk)
        as (w' & Hrun & _ & Hsent & _).
      unfold signals_no_active_day in Hsig.
      rewrite Hrun in Hsig. cbn [snd] in Hsig. rewrite Hsent in Hsig.
      apply app_inv_head in Hsig. discriminate.
  - intros Hwk. rewrite (Hnone Hwk). repeat split.
  - intros wk Hwk.
    destruct (sleep_ok w user_id state s d wk now Hday Hwf Hwk)
      as (w' & Hrun & Hday' & Hsent & _).
    rewrite Hrun. split; [reflexivity|]. split; [exact Hday'|].
    eexists. exact Hsent.
Qed.

(** ** Concrete days *)

Lemma world0_is_first_contact : snd (get_user_state 7 initial_world) = world0.
Proof. vm_compute. reflexivity. Qed.


Lemma has_day_world0 : has_day world0 7 day0 zero_totals.
Proof. split; vm_compute; reflexivity. Qed.

Lemma fresh_day0 : fresh_day day0 zero_totals.
Proof.
  split; [reflexivity|]. split; [reflexivity|].
  apply kind_cases; vm_compute; reflexivity.
Qed.

Lemma has_day_world_coding : has_day world_coding 7 day_coding zero_totals.
Proof. split; vm_compute; reflexivity. Qed.

Lemma day_wf_coding : day_wf day_coding zero_totals.
Proof.
  split; [|split].
  - apply kind_cases; vm_compute; eauto.
  - intros c [= <-]. split; [unfold KINDS; repeat constructor|vm_compute; eauto].
  - discriminate.
Qed.


Lemma start_switches_activity_witness :
  (exists w' d',
      switch_scenario 7 "contrib" "coding" (at_clock 9 0) (at_clock 9 10) (at_clock 9 30)
        world0
      = (Ret (start_message "contrib" (at_clock 9 0) None,
              start_message "coding" (at_clock 9 10) (Some "contrib"),
              pause_message "coding" (at_clock 9 30)), w')
      /\ has_day w' 7 (stopped day0) d'
      /\ d' !! "contrib" = Some (at_clock 9 10 - at_clock 9 0)
      /\ d' !! "coding" = Some (at_clock 9 30 - at_clock 9 10)
      /\ (forall k, k ∈ KINDS -> k <> "contrib" -> k <> "coding" -> d' !! k = Some 0)
      /\ sum_totals d' = at_clock 9 30 - at_clock 9 0)
  /\ (exists w',
        start_act 7 (at_clock 9 30) "soft" world_coding
        = (Ret (start_message "soft" (at_clock 9 30) (Some "coding")), w')
        /\ has_day w' 7 (running day_coding "soft" (at_clock 9 30))
             (credit day_coding zero_totals (at_clock 9 30))).
Proof.
  split.
  - apply (proj1 start_switches_activity world0 7 day0 zero_totals "contrib" "coding").
    + split; vm_compute; reflexivity.
    + split; [reflexivity|]. split; [reflexivity|].
      apply kind_cases; vm_compute; reflexivity.
    + unfold KINDS. repeat constructor.
    + unfold KINDS. repeat constructor.
    + discriminate.
    + unfold at_clock, US_PER_SECOND. lia.
    + unfold at_clock, US_PER_SECOND. lia.
  - apply (proj2 start_switches_activity world_coding 7 day_coding zero_totals "soft").
    + split; vm_compute; reflexivity.
    + exact day_wf_coding.
    + unfold KINDS. repeat constructor.
Defined.

Lemma close_current_activity_spec_witness :
  close_current_activity 7 (at_clock 9 30) world0 = (Ret None, world0)
  /\ close_current_activity 7 (at_clock 9 30) world_coding
     = (Ret (Some "coding"),
        put_day 7 (stopped day_coding)
          (<["coding" := 0 + Z.max 0 (at_clock 9 30 - at_clock 9 0)]> zero_totals)
          world_coding).
Proof.
  split.
  - apply (proj1 (close_current_activity_spec world0 7 day0 zero_totals (at_clock 9 30)
                    ltac:(split; vm_compute; reflexivity))).
    reflexivity.
  - apply (proj2 (close_current_activity_spec world_coding 7 day_coding zero_totals
                    (at_clock 9 30) ltac:(split; vm_compute; reflexivity))
             "coding" (at_clock 9 0) 0).
    + reflexivity.
    + discriminate.
    + reflexivity.
    + vm_compute. reflexivity.
Defined.

Lemma daily_report_is_a_pure_read_witness :
  build_daily_report_text 7 (at_clock 9 30) world_coding
  = (Ret (daily_text day_coding (credit day_coding zero_totals (at_clock 9 30))
            (at_clock 8 0) (at_clock 9 30)),
     with_new_dict (credit day_coding zero_totals (at_clock 9 30)) world_coding).
Proof.
  apply (proj2 (proj2 (proj2 (proj2 (proj2
           (daily_report_is_a_pure_read world_coding 7 (at_clock 9 30))))))
           day_coding zero_totals (at_clock 8 0)).
  - split; vm_compute; reflexivity.
  - exact day_wf_coding.
  - reflexivity.
Defined.

Lemma end_day_spec_witness :
  (wake_time day0 = None
   <-> signals_no_active_day world0 (snd (on_sleep_time 7 7 (at_clock 23 0) world0)))
  /\ fst (on_sleep_time 7 7 (at_clock 23 0) world_coding) = Ret tt.
Proof.
  split.
  - apply (end_day_spec world0 7 7 day0 zero_totals (at_clock 23 0)).
    + split; vm_compute; reflexivity.
    + apply fresh_day_wf. split; [reflexivity|]. split; [reflexivity|].
      apply kind_cases; vm_compute; reflexivity.
  - apply (proj2 (proj2 (end_day_spec world_coding 7 7 day_coding zero_totals
                           (at_clock 23 0)
                           ltac:(split; vm_compute; reflexivity) day_wf_coding))
             (at_clock 8 0)).
    reflexivity.
Defined.

Lemma activity_iff_start_invariant_witness :
  all_inv (user_state (snd (callback_handler 7 "start_coding" (at_clock 9 0) world0))).
Proof.
  apply (proj2 (proj2 activity_iff_start_invariant)
           world0 7 7 "start_coding" "coding" (at_clock 9 0)).
  intros u s Hs. unfold world0 in Hs. cbn [user_state] in Hs.
  apply lookup_singleton_Some in Hs as [_ <-]. split; reflexivity.
Defined.

(** ** The wake-up button *)

Lemma state_set_run w state s upd :
  user_state w !! state = Some s ->
  state_set state upd w
  = (Ret tt, with_user_state (<[state := upd s]> (user_state w)) w).
Proof. intros Hs. unfold state_set. rewrite Hs. reflexivity. Qed.

Lemma woke_up_run w state s now :
  user_state w !! state = Some s ->
  on_woke_up state now w
  = (Ret tt,
     mkWorld
       (<[state := mkState (Some now) None None None (fresh (dom (dicts w)))]>
          (user_state w))
       (<[fresh (dom (dicts w)) := zero_totals]> (dicts w))
       (daily_stats w)
       (sent w ++ [(woke_up_message now, Some build_main_menu_keyboard)])%list).
Proof.
  intros Hs. unfold on_woke_up.
  eapply bind_run; [apply (state_set_run _ _ _ _ Hs)|].
  eapply bind_run; [apply state_set_run; apply lookup_insert_eq|].
  eapply bind_run; [reflexivity|].
  eapply bind_run; [apply state_set_run; apply lookup_insert_eq|].
  eapply bind_run; [apply state_set_run; apply lookup_insert_eq|].
  eapply bind_run; [apply state_set_run; apply lookup_insert_eq|].
  unfold reply_text, with_sent, with_user_state, with_dicts.
  cbn [user_state dicts daily_stats sent].
  rewrite !insert_insert_eq. reflexivity.
Qed.

Lemma zero_totals_fresh s :
  current_activity s = None -> current_start s = None -> fresh_day s zero_totals.
Proof.
  intros Hc Ht. split; [exact Hc|]. split; [exact Ht|].
  apply kind_cases; reflexivity.
Qed.

(** X1.  The wake-up button always succeeds on an existing state: it
    sets [wake_time] to [now], clears [sleep_time] and the running
    activity, and points [totals] at a new all-zero dictionary, so that
    tracked time is zero afterwards; the old dictionary and the table
    are left as they were (a running activity is dropped, not
    credited). *)
Theorem woke_up_starts_a_fresh_day
    (w : World) (state : Z) (s : State) (now : datetime) :
  user_state w !! state = Some s ->
  exists w' s',
    on_woke_up state now w = (Ret tt, w')
    /\ has_day w' state s' zero_totals /\ fresh_day s' zero_totals
    /\ wake_time s' = Some now /\ sleep_time s' = None
    /\ dicts w !! totals s' = None
    /\ (forall l x, dicts w !! l = Some x -> dicts w' !! l = Some x)
    /\ (forall t, tracked w' state t = Some 0)
    /\ daily_stats w' = daily_stats w
    /\ sent w' = (sent w ++ [(woke_up_message now, Some build_main_menu_keyboard)])%list.
Proof.
  intros Hs. eexists _, (mkState (Some now) None None None (fresh (dom (dicts w)))).
  split; [apply (woke_up_run _ _ _ _ Hs)|].
  assert (Hday : has_day
    (mkWorld
       (<[state := mkState (Some now) None None None (fresh (dom (dicts w)))]>
          (user_state w))
       (<[fresh (dom (dicts w)) := zero_totals]> (dicts w))
       (daily_stats w)
       (sent w ++ [(woke_up_message now, Some build_main_menu_keyboard)])%list)
    state (mkState (Some now) None None None (fresh (dom (dicts w)))) zero_totals).
  { split; cbn [user_state dicts totals]; apply lookup_insert_eq. }
  split; [exact Hday|].
  split; [apply zero_totals_fresh; reflexivity|].
  split; [reflexivity|]. split; [reflexivity|].
  split.
  { cbn [totals]. apply not_elem_of_dom. apply is_fresh. }
  split.
  { intros l x Hl. cbn [dicts]. apply lookup_insert_fresh, Hl. }
  split.
  { intros t. rewrite (tracked_has_day _ _ _ _ t Hday). reflexivity. }
  split; reflexivity.
Qed.

Lemma woke_up_starts_a_fresh_day_witness :
  exists w' s',
    on_woke_up 7 (at_clock 8 0) world_coding = (Ret tt, w')
    /\ has_day w' 7 s' zero_totals /\ fresh_day s' zero_totals
    /\ wake_time s' = Some (at_clock 8 0) /\ sleep_time s' = None
    /\ dicts world_coding !! totals s' = None
    /\ (forall l x, dicts world_coding !! l = Some x -> dicts w' !! l = Some x)
    /\ (forall t, tracked w' 7 t = Some 0)
    /\ daily_stats w' = daily_stats world_coding
    /\ sent w' = (sent world_coding
                  ++ [(woke_up_message (at_clock 8 0), Some build_main_menu_keyboard)])%list.
Proof.
  apply (woke_up_starts_a_fresh_day world_coding 7 day_coding (at_clock 8 0)).
  vm_compute. reflexivity.
Defined.

(** ** Pausing and resuming *)

Lemma activity_name_unknown code w :
  ACTIVITY_NAMES !! code = None -> activity_name code w = (Raise (KeyError code), w).
Proof. intros H. unfold activity_name. rewrite H. reflexivity. Qed.

(** X2.  Pausing a code that is not the running activity changes
    nothing: for one of the four kinds the answer is "... is not
    active."; for a code missing from [ACTIVITY_NAMES] the call raises
    [KeyError] with the world untouched. *)
Theorem pause_of_idle_kind_changes_nothing
    (w : World) (state : Z) (s : State) (code : string) (now : datetime) :
  user_state w !! state = Some s ->
  current_activity s <> Some code ->
  (code ∈ KINDS ->
   pause_act state now code w = (Ret (name_of code ++ " is not active."), w))
  /\ (ACTIVITY_NAMES !! code = None ->
      pause_act state now code w = (Raise (KeyError code), w)).
Proof.
  intros Hs Hne. split; intros Hcode; unfold pause_act.
  - eapply bind_run; [apply (state_get_run _ _ _ _ Hs)|].
    rewrite bool_decide_false by exact Hne.
    eapply bind_run; [apply (activity_name_kind _ _ Hcode)|]. reflexivity.
  - eapply bind_run; [apply (state_get_run _ _ _ _ Hs)|].
    rewrite bool_decide_false by exact Hne.
    unfold bind. rewrite (activity_name_unknown _ _ Hcode). reflexivity.
Qed.

Lemma pause_of_idle_kind_changes_nothing_witness :
  pause_act 7 (at_clock 9 30) "soft" world_coding
  = (Ret (name_of "soft" ++ " is not active."), world_coding)
  /\ pause_act 7 (at_clock 9 30) "nap" world_coding
     = (Raise (KeyError "nap"), world_coding).
Proof.
  destruct (pause_of_idle_kind_changes_nothing world_coding 7 day_coding "soft"
              (at_clock 9 30) ltac:(vm_compute; reflexivity) ltac:(discriminate))
    as [Hk _].
  destruct (pause_of_idle_kind_changes_nothing world_coding 7 day_coding "nap"
              (at_clock 9 30) ltac:(vm_compute; reflexivity) ltac:(discriminate))
    as [_ Hu].
  split; [apply Hk; unfold KINDS; repeat constructor|apply Hu; reflexivity].
Defined.

(** X3.  [continue_act] never credits: it succeeds for each kind,
    leaves every dictionary as it was and restarts the clock at [now],
    so the elapsed time of an activity that was still running is lost
    from the tracked time. *)
Theorem resume_discards_running_time
    (w : World) (state : Z) (s : State) (d : gmap string Z)
    (code : string) (now : datetime) :
  has_day w state s d -> code ∈ KINDS ->
  exists w',
    continue_act state now code w = (Ret (continue_message code now), w')
    /\ has_day w' state (running s code now) d
    /\ dicts w' = dicts w
    /\ tracked w' state now = Some (sum_totals d)
    /\ tracked w state now = Some (sum_totals d + running_elapsed s now)
    /\ 0 <= running_elapsed s now.
Proof.
  intros Hday Hcode. eexists.
  split; [apply (continue_ok _ _ _ _ _ _ Hday Hcode)|].
  split; [apply has_day_put_day|].
  split; [cbn [dicts put_day totals running]; apply insert_id, Hday|].
  split.
  { rewrite (tracked_has_day _ _ _ _ now (has_day_put_day _ _ _ _)).
    rewrite (running_elapsed_closing _ _ _ now (closing_running s _ _ Hcode)).
    rewrite clamp_max. f_equal. lia. }
  split; [apply (tracked_has_day _ _ _ _ now Hday)|apply running_elapsed_nonneg].
Qed.

Lemma resume_discards_running_time_witness :
  exists w',
    continue_act 7 (at_clock 9 30) "soft" world_coding
    = (Ret (continue_message "soft" (at_clock 9 30)), w')
    /\ has_day w' 7 (running day_coding "soft" (at_clock 9 30)) zero_totals
    /\ dicts w' = dicts world_coding
    /\ tracked w' 7 (at_clock 9 30) = Some (sum_totals zero_totals)
    /\ tracked world_coding 7 (at_clock 9 30)
       = Some (sum_totals zero_totals + running_elapsed day_coding (at_clock 9 30))
    /\ 0 <= running_elapsed day_coding (at_clock 9 30).
Proof.
  apply (resume_discards_running_time world_coding 7 day_coding zero_totals "soft"
           (at_clock 9 30)).
  - split; vm_compute; reflexivity.
  - unfold KINDS. repeat constructor.
Defined.

(** ** A code that is no activity *)




(** ** Per-user states *)

(** X5.  [get_user_state] returns the user's id; for a known user it
    changes nothing, so a second call is a no-op; for a new user it adds
    a state with no wake time and a fresh all-zero totals dictionary at
    a location no existing dictionary has, leaving the other users and
    all existing dictionaries alone. *)
Theorem get_user_state_creates_once (w : World) (user_id : Z) :
  fst (get_user_state user_id w) = Ret user_id
  /\ (forall s, user_state w !! user_id = Some s -> snd (get_user_state user_id w) = w)
  /\ get_user_state user_id (snd (get_user_state user_id w))
     = (Ret user_id, snd (get_user_state user_id w))
  /\ (forall u, u <> user_id ->
        user_state (snd (get_user_state user_id w)) !! u = user_state w !! u)
  /\ (forall l x, dicts w !! l = Some x ->
        dicts (snd (get_user_state user_id w)) !! l = Some x)
  /\ (user_state w !! user_id = None ->
      exists s, has_day (snd (get_user_state user_id w)) user_id s zero_totals
                /\ fresh_day s zero_totals
                /\ wake_time s = None /\ sleep_time s = None
                /\ dicts w !! totals s = None).
Proof.
  unfold get_user_state.
  destruct (user_state w !! user_id) as [s|] eqn:Hs.
  - cbn [fst snd]. rewrite Hs. repeat split; try done.
  - unfold bind, dict_new. cbn [fst snd user_state with_user_state with_dicts dicts].
    rewrite lookup_insert_eq.
    split; [reflexivity|]. split; [discriminate|]. split; [reflexivity|].
    split; [intros u Hu; apply lookup_insert_ne; congruence|].
    split; [intros l x Hl; apply lookup_insert_fresh, Hl|].
    intros _. eexists. split; [split; cbn [totals]; apply lookup_insert_eq|].
    split; [apply zero_totals_fresh; reflexivity|].
    split; [reflexivity|]. split; [reflexivity|].
    cbn [totals]. apply not_elem_of_dom, is_fresh.
Qed.

Lemma get_user_state_creates_once_witness :
  snd (get_user_state 7 world_coding) = world_coding
  /\ exists s, has_day (snd (get_user_state 8 world_coding)) 8 s zero_totals
               /\ fresh_day s zero_totals
               /\ wake_time s = None /\ sleep_time s = None
               /\ dicts world_coding !! totals s = None.
Proof.
  destruct (get_user_state_creates_once world_coding 7) as (_ & H1 & _).
  destruct (get_user_state_creates_once world_coding 8) as (_ & _ & _ & _ & _ & H2).
  split; [apply (H1 day_coding); vm_compute; reflexivity|].
  apply H2. vm_compute. reflexivity.
Defined.

(** ** The table of finished days *)

Lemma same_key_spec user_id d r :
  same_key user_id d r = true <-> row_key r = (user_id, d).
Proof.
  unfold same_key, row_key. rewrite andb_true_iff, Z.eqb_eq, String.eqb_eq.
  split; [intros [-> ->]; reflexivity|intros [= -> ->]; done].
Qed.

Lemma in_insert_or_replace r r' table :
  In r' (insert_or_replace r table)
  <-> r' = r \/ (In r' table /\ row_key r' <> row_key r).
Proof.
  unfold insert_or_replace. rewrite in_app_iff, filter_In. cbn [In].
  rewrite negb_true_iff, <- not_true_iff_false, same_key_spec.
  change (row_user_id r, row_date r) with (row_key r). intuition congruence.
Qed.

Lemma NoDup_map_filter {A B} (f : A -> B) (P : A -> bool) (l : list A) :
  List.NoDup (map f l) -> List.NoDup (map f (List.filter P l)).
Proof.
  induction l as [|x l IH]; cbn; [intros; constructor|].
  intros Hnd. inversion Hnd as [|? ? Hx Hl]; subst.
  destruct (P x); cbn; [|apply IH, Hl].
  constructor; [|apply IH, Hl].
  intros Hin. apply Hx. apply in_map_iff in Hin as (y & Hy & Hin).
  apply filter_In in Hin as [Hin _]. apply in_map_iff. eauto.
Qed.

(** X6.  [INSERT OR REPLACE]: the new row is in the table, it is the
    only row with its key, rows with other keys are exactly those that
    were there, keys stay unique if they were, and the table grows by at
    most one row. *)
Theorem insert_or_replace_keeps_keys_unique (r : Row) (table : list Row) :
  In r (insert_or_replace r table)
  /\ (forall r', In r' (insert_or_replace r table) -> row_key r' = row_key r -> r' = r)
  /\ (forall r', row_key r' <> row_key r ->
        (In r' (insert_or_replace r table) <-> In r' table))
  /\ (NoDup (map row_key table) -> NoDup (map row_key (insert_or_replace r table)))
  /\ (length (insert_or_replace r table) <= S (length table))%nat.
Proof.
  split; [apply in_insert_or_replace; left; reflexivity|].
  split.
  { intros r' Hin Hkey. apply in_insert_or_replace in Hin as [->|[_ Hne]]; done. }
  split.
  { intros r' Hne. rewrite in_insert_or_replace. intuition congruence. }
  split.
  - intros Hnd. unfold insert_or_replace. rewrite map_app. cbn [map].
    apply NoDup_app.
    split; [apply NoDup_ListNoDup, NoDup_map_filter, NoDup_ListNoDup, Hnd|].
    split; [|apply NoDup_singleton].
    intros k Hk Hk'. apply list_elem_of_In in Hk. apply list_elem_of_singleton in Hk'.
    subst k. apply in_map_iff in Hk as (r' & Hkey & Hin).
    apply filter_In in Hin as [_ Hneg].
    apply negb_true_iff, not_true_iff_false in Hneg. apply Hneg.
    apply same_key_spec. exact Hkey.
  - unfold insert_or_replace. rewrite length_app. cbn [length].
    pose proof (filter_length_le
                  (fun r' => negb (same_key (row_user_id r) (row_date r) r')) table).
    lia.
Qed.

Lemma insert_or_replace_keeps_keys_unique_witness :
  NoDup (map row_key (insert_or_replace sample_row [sample_row])).
Proof.
  apply (proj1 (proj2 (proj2 (proj2
           (insert_or_replace_keeps_keys_unique sample_row [sample_row]))))).
  vm_compute. repeat constructor. intros H. inversion H.
Defined.

Lemma leb_refl s : String.leb s s = true.
Proof. destruct (String.leb_total s s); assumption. Qed.

Lemma in_range_one_day user_id d r :
  in_range user_id d d r = true <-> row_key r = (user_id, isoformat d).
Proof.
  unfold in_range, row_key. rewrite !andb_true_iff, Z.eqb_eq. split.
  - intros [[-> H1] H2]. f_equal. apply String.leb_antisym; assumption.
  - intros [= -> ->]. rewrite leb_refl. done.
Qed.

Lemma filter_nil_iff {A} (P : A -> bool) (l : list A) :
  (forall x, In x l -> P x = false) -> List.filter P l = [].
Proof.
  intros H. apply filter_all_false. apply Forall_forall.
  intros x Hx. apply H. apply list_elem_of_In. exact Hx.
Qed.

Lemma one_day_after_upsert user_id d r table :
  row_key r = (user_id, isoformat d) ->
  List.filter (in_range user_id d d) (insert_or_replace r table) = [r].
Proof.
  intros Hkey. unfold insert_or_replace. rewrite List.filter_app. cbn [List.filter].
  rewrite (proj2 (in_range_one_day user_id d r) Hkey).
  rewrite filter_nil_iff; [reflexivity|].
  intros r' Hin. apply filter_In in Hin as [_ Hneg].
  apply negb_true_iff, not_true_iff_false in Hneg.
  apply not_true_iff_false. intros Hr. apply Hneg.
  apply same_key_spec. apply in_range_one_day in Hr.
  unfold row_key in *. congruence.
Qed.

Lemma get_stats_one_row user_id d r w :
  List.filter (in_range user_id d d) (daily_stats w) = [r] ->
  get_stats_range user_id d d w = (Ret (Some (stats_of_row r)), w).
Proof.
  intros Hf. unfold get_stats_range. rewrite Hf. unfold stats_of_row. cbn.
  rewrite !Z.add_0_r. reflexivity.
Qed.

(** X7.  A day saved by [save_daily_stats_to_db] (its totals holding
    the four kinds) is read back by [get_stats_range] over that single
    date: one day, with the saved whole seconds; saving touches only the
    table. *)
Theorem saved_day_is_read_back
    (w : World) (user_id : Z) (day_date : date) (alive_td : timedelta)
    (l : positive) (m : gmap string Z) :
  dicts w !! l = Some m ->
  (forall k, k ∈ KINDS -> is_Some (m !! k)) ->
  exists w',
    save_daily_stats_to_db user_id day_date alive_td l w = (Ret tt, w')
    /\ daily_stats w'
       = insert_or_replace (saved_row user_id day_date alive_td m) (daily_stats w)
    /\ user_state w' = user_state w /\ dicts w' = dicts w /\ sent w' = sent w
    /\ get_stats_range user_id day_date day_date w'
       = (Ret (Some (stats_of_row (saved_row user_id day_date alive_td m))), w').
Proof.
  intros Hl Hm. eexists. split; [apply (save_ok _ _ _ _ _ _ Hl Hm)|].
  split; [reflexivity|]. split; [reflexivity|]. split; [reflexivity|].
  split; [reflexivity|].
  apply get_stats_one_row. cbn [daily_stats with_daily_stats].
  apply (one_day_after_upsert user_id day_date
           (saved_row user_id day_date alive_td m)). reflexivity.
Qed.

Lemma saved_day_is_read_back_witness :
  exists w',
    save_daily_stats_to_db 7 (mkDate 2025 11 6) (timedelta_of_seconds 54000) 1 world0
    = (Ret tt, w')
    /\ daily_stats w'
       = insert_or_replace
           (saved_row 7 (mkDate 2025 11 6) (timedelta_of_seconds 54000) zero_totals)
           (daily_stats world0)
    /\ user_state w' = user_state world0 /\ dicts w' = dicts world0
    /\ sent w' = sent world0
    /\ get_stats_range 7 (mkDate 2025 11 6) (mkDate 2025 11 6) w'
       = (Ret (Some (stats_of_row
                       (saved_row 7 (mkDate 2025 11 6) (timedelta_of_seconds 54000)
                          zero_totals))), w').
Proof.
  apply (saved_day_is_read_back world0 7 (mkDate 2025 11 6) (timedelta_of_seconds 54000)
           1 zero_totals).
  - vm_compute. reflexivity.
  - apply kind_cases; vm_compute; eauto.
Defined.

(** X8.  The sleep button of a started day in good order files the day
    under the date of its wake time, with [alive] the whole seconds of
    [max 0 (now - wake)] and the credited totals, replacing any row of
    that date; the range over that date then returns exactly this
    day. *)
Theorem sleep_files_the_day_under_its_wake_date
    (w : World) (user_id state : Z) (s : State) (d : gmap string Z)
    (wk now : datetime) :
  has_day w state s d -> day_wf s d -> wake_time s = Some wk ->
  exists w',
    on_sleep_time user_id state now w = (Ret tt, w')
    /\ daily_stats w'
       = insert_or_replace (day_row user_id wk now (credit s d now)) (daily_stats w)
    /\ row_date (day_row user_id wk now (credit s d now)) = isoformat (date_of wk)
    /\ alive_seconds (day_row user_id wk now (credit s d now))
       = int_total_seconds (Z.max 0 (now - wk))
    /\ get_stats_range user_id (date_of wk) (date_of wk) w'
       = (Ret (Some (stats_of_row (day_row user_id wk now (credit s d now)))), w').
Proof.
  intros Hday Hwf Hwk.
  destruct (sleep_ok w user_id state s d wk now Hday Hwf Hwk)
    as (w' & Hrun & _ & _ & Hstats).
  exists w'. split; [exact Hrun|]. split; [exact Hstats|]. split; [reflexivity|].
  split; [cbn [alive_seconds day_row]; rewrite clamp_max; reflexivity|].
  apply get_stats_one_row. rewrite Hstats.
  apply one_day_after_upsert. reflexivity.
Qed.

Lemma sleep_files_the_day_under_its_wake_date_witness :
  exists w',
    on_sleep_time 7 7 (at_clock 23 0) world_coding = (Ret tt, w')
    /\ daily_stats w'
       = insert_or_replace
           (day_row 7 (at_clock 8 0) (at_clock 23 0)
              (credit day_coding zero_totals (at_clock 23 0)))
           (daily_stats world_coding)
    /\ row_date (day_row 7 (at_clock 8 0) (at_clock 23 0)
                   (credit day_coding zero_totals (at_clock 23 0)))
       = isoformat (date_of (at_clock 8 0))
    /\ alive_seconds (day_row 7 (at_clock 8 0) (at_clock 23 0)
                        (credit day_coding zero_totals (at_clock 23 0)))
       = int_total_seconds (Z.max 0 (at_clock 23 0 - at_clock 8 0))
    /\ get_stats_range 7 (date_of (at_clock 8 0)) (date_of (at_clock 8 0)) w'
       = (Ret (Some (stats_of_row
                       (day_row 7 (at_clock 8 0) (at_clock 23 0)
                          (credit day_coding zero_totals (at_clock 23 0))))), w').
Proof.
  apply (sleep_files_the_day_under_its_wake_date world_coding 7 7 day_coding zero_totals
           (at_clock 8 0) (at_clock 23 0)).
  - split; vm_compute; reflexivity.
  - exact day_wf_coding.
  - reflexivity.
Defined.

Example sleep_row_of_the_coding_day :
  day_row 7 (at_clock 8 0) (at_clock 23 0) (credit day_coding zero_totals (at_clock 23 0))
  = mkRow 7 "2025-11-06" 54000 0 0 0 50400.
Proof. vm_compute. reflexivity. Qed.

(** X9.  [get_stats_range] only reads, and rows of other users never
    change its result; its day count is the number of the user's rows in
    the range, between zero and the size of the table. *)
Theorem range_counts_only_the_users_rows
    (w : World) (user_id : Z) (start_date end_date : date) (others : list Row) :
  Forall (fun r => row_user_id r <> user_id) others ->
  snd (get_stats_range user_id start_date end_date w) = w
  /\ fst (get_stats_range user_id start_date end_date
            (with_daily_stats (daily_stats w ++ others)%list w))
     = fst (get_stats_range user_id start_date end_date w)
  /\ (exists stats,
        fst (get_stats_range user_id start_date end_date w) = Ret (Some stats)
        /\ days_count stats
           = Z.of_nat (length (List.filter (in_range user_id start_date end_date)
                                 (daily_stats w)))
        /\ 0 <= days_count stats <= Z.of_nat (length (daily_stats w))).
Proof.
  intros Hothers. split; [reflexivity|]. split.
  - unfold get_stats_range. cbn [fst daily_stats with_daily_stats].
    rewrite List.filter_app.
    rewrite (filter_all_false (in_range user_id start_date end_date) others).
    + rewrite app_nil_r. reflexivity.
    + eapply Forall_impl; [exact Hothers|]. cbn beta. intros r Hne.
      unfold in_range. apply Z.eqb_neq in Hne. rewrite Hne. reflexivity.
  - eexists. split; [reflexivity|]. cbn [days_count]. split; [reflexivity|].
    pose proof (filter_length_le (in_range user_id start_date end_date) (daily_stats w)).
    lia.
Qed.

Lemma range_counts_only_the_users_rows_witness :
  fst (get_stats_range 8 (mkDate 2025 11 1) (mkDate 2025 11 30)
         (with_daily_stats (daily_stats world0 ++ [sample_row])%list world0))
  = fst (get_stats_range 8 (mkDate 2025 11 1) (mkDate 2025 11 30) world0).
Proof.
  apply (range_counts_only_the_users_rows world0 8 (mkDate 2025 11 1) (mkDate 2025 11 30)
           [sample_row]).
  repeat constructor. vm_compute. discriminate.
Defined.

(** ** Buttons and the handler *)

Lemma code_of_pause code w : code_of ("pause_" ++ code) w = (Ret code, w).
Proof. reflexivity. Qed.

Lemma code_of_continue code w : code_of ("continue_" ++ code) w = (Ret code, w).
Proof. reflexivity. Qed.

Lemma prefix_pause code : String.prefix "pause_" ("pause_" ++ code) = true.
Proof. destruct code; reflexivity. Qed.

Lemma prefix_continue code : String.prefix "continue_" ("continue_" ++ code) = true.
Proof. destruct code; reflexivity. Qed.

Lemma get_user_state_returns user_id w :
  exists w1, get_user_state user_id w = (Ret user_id, w1).
Proof.
  unfold get_user_state. destruct (user_state w !! user_id); eauto.
Qed.

(** X10.  The data of the buttons and the handler agree: the keyboard
    built for an activity carries ["pause_" + code] (the paused one
    ["continue_" + code]), and on such data the handler recovers the
    code and runs [pause_act] (resp. [continue_act]) with it, for every
    code. *)
Theorem button_data_round_trip (user_id : Z) (code : string) (now : datetime) (w : World) :
  (forall name,
      ACTIVITY_NAMES !! code = Some name ->
      (exists kb, build_activity_keyboard code w = (Ret kb, w)
                  /\ callback_data_of kb = ["pause_" ++ code; "show_menu"])
      /\ (exists kb, build_paused_keyboard code w = (Ret kb, w)
                     /\ callback_data_of kb = ["continue_" ++ code; "show_menu"]))
  /\ callback_handler user_id ("pause_" ++ code) now w = pause_branch user_id code now w
  /\ callback_handler user_id ("continue_" ++ code) now w
     = continue_branch user_id code now w.
Proof.
  split; [|split].
  - intros name Hname. unfold build_activity_keyboard, build_paused_keyboard, bind,
      activity_name. rewrite Hname. split; eexists; split; reflexivity.
  - unfold callback_handler, pause_branch, bind.
    destruct (get_user_state_returns user_id w) as [w1 ->].
    cbn [String.eqb Ascii.eqb Bool.eqb andb append]. rewrite prefix_pause. reflexivity.
  - unfold callback_handler, continue_branch, bind.
    destruct (get_user_state_returns user_id w) as [w1 ->].
    cbn [String.eqb Ascii.eqb Bool.eqb andb append].
    replace (String.prefix "pause_" ("continue_" ++ code)) with false by reflexivity.
    rewrite prefix_continue. reflexivity.
Qed.

Lemma button_data_round_trip_witness :
  (exists kb, build_activity_keyboard "soft" world0 = (Ret kb, world0)
              /\ callback_data_of kb = ["pause_" ++ "soft"; "show_menu"])
  /\ (exists kb, build_paused_keyboard "soft" world0 = (Ret kb, world0)
                 /\ callback_data_of kb = ["continue_" ++ "soft"; "show_menu"]).
Proof.
  apply (proj1 (button_data_round_trip 7 "soft" 0 world0) "Abuse Soft (Retro/Free)").
  reflexivity.
Defined.

Lemma day_wf_dict s (d d' : gmap string Z) :
  day_wf s d -> (forall k, k ∈ KINDS -> is_Some (d' !! k)) -> day_wf s d'.
Proof. intros (_ & H2 & H3) Hk. split; [exact Hk|]. split; assumption. Qed.

Lemma world_wf_has_day w u s : world_wf w -> user_state w !! u = Some s ->
  exists d, has_day w u s d /\ day_wf s d.
Proof. intros Hw Hs. destruct (Hw u s Hs) as (d & Hd & Hwf). exists d. by split. Qed.

Lemma world_wf_put_day w state s d s' d' :
  world_wf w -> has_day w state s d -> totals s' = totals s -> day_wf s' d' ->
  world_wf (put_day state s' d' w).
Proof.
  intros Hw [Hs Hd] Ht Hwf' u su. cbn [user_state dicts put_day].
  destruct (decide (u = state)) as [->|Hne].
  - rewrite lookup_insert_eq. intros [= <-]. exists d'.
    split; [apply lookup_insert_eq|exact Hwf'].
  - rewrite lookup_insert_ne by congruence. intros Hu.
    destruct (Hw u su Hu) as (du & Hdu & Hwfu).
    destruct (decide (totals su = totals s')) as [Heq|Hneq].
    + exists d'. rewrite Heq. split; [apply lookup_insert_eq|].
      apply (day_wf_dict _ _ _ Hwfu (proj1 Hwf')).
    + exists du. rewrite lookup_insert_ne by congruence. by split.
Qed.

Lemma world_wf_with_sent w v : world_wf w -> world_wf (with_sent v w).
Proof. intros H. exact H. Qed.

Lemma world_wf_with_daily_stats w v : world_wf w -> world_wf (with_daily_stats v w).
Proof. intros H. exact H. Qed.

Lemma world_wf_with_new_dict w m : world_wf w -> world_wf (with_new_dict m w).
Proof.
  intros Hw u s Hs. destruct (Hw u s Hs) as (d & Hd & Hwf).
  exists d. split; [cbn [dicts with_new_dict with_dicts]; apply lookup_insert_fresh, Hd|].
  exact Hwf.
Qed.

Lemma world_wf_new_day w state s' (ws : list (string * option InlineKeyboardMarkup))
    (rows : list Row) :
  world_wf w -> fresh_day s' zero_totals -> totals s' = fresh (dom (dicts w)) ->
  world_wf (mkWorld (<[state := s']> (user_state w))
                    (<[fresh (dom (dicts w)) := zero_totals]> (dicts w)) rows ws).
Proof.
  intros Hw Hfresh Ht u su. cbn [user_state dicts].
  destruct (decide (u = state)) as [->|Hne].
  - rewrite lookup_insert_eq. intros [= <-]. exists zero_totals.
    split; [rewrite Ht; apply lookup_insert_eq|apply fresh_day_wf, Hfresh].
  - rewrite lookup_insert_ne by congruence. intros Hu.
    destruct (Hw u su Hu) as (du & Hdu & Hwfu). exists du.
    split; [apply lookup_insert_fresh, Hdu|exact Hwfu].
Qed.

Lemma world_wf_initial : world_wf initial_world.
Proof. intros u s Hs. cbn in Hs. rewrite lookup_empty in Hs. discriminate. Qed.

Lemma get_user_state_wf w user_id :
  world_wf w ->
  exists w1 s d,
    get_user_state user_id w = (Ret user_id, w1)
    /\ world_wf w1 /\ has_day w1 user_id s d /\ day_wf s d /\ sent w1 = sent w.
Proof.
  intros Hw. unfold get_user_state.
  destruct (user_state w !! user_id) as [s|] eqn:Hs.
  - destruct (world_wf_has_day _ _ _ Hw Hs) as (d & Hday & Hwf).
    exists w, s, d. split; [reflexivity|]. split; [exact Hw|].
    split; [exact Hday|]. split; [exact Hwf|reflexivity].
  - unfold bind, dict_new. cbn [with_user_state with_dicts user_state dicts daily_stats sent].
    eexists _, _, zero_totals. split; [reflexivity|].
    assert (Hf : fresh_day (mkState None None None None (fresh (dom (dicts w))))
                   zero_totals) by (apply zero_totals_fresh; reflexivity).
    split; [apply world_wf_new_day; [exact Hw|exact Hf|reflexivity]|].
    split; [split; cbn [user_state dicts totals]; apply lookup_insert_eq|].
    split; [apply fresh_day_wf, Hf|reflexivity].
Qed.

Lemma report_no_wake w state s now :
  user_state w !! state = Some s -> wake_time s = None ->
  build_daily_report_text state now w = (Ret NO_ACTIVE_DAY, w).
Proof.
  intros Hs Hwk. unfold build_daily_report_text.
  eapply bind_run; [apply (state_get_run _ _ _ _ Hs)|].
  eapply bind_run; [apply (state_get_run _ _ _ _ Hs)|].
  rewrite Hwk. reflexivity.
Qed.

Lemma build_activity_keyboard_kind k w :
  k ∈ KINDS -> exists kb, build_activity_keyboard k w = (Ret kb, w).
Proof.
  intros Hk. unfold build_activity_keyboard, bind.
  rewrite (activity_name_kind _ _ Hk). eauto.
Qed.

Lemma build_paused_keyboard_kind k w :
  k ∈ KINDS -> exists kb, build_paused_keyboard k w = (Ret kb, w).
Proof.
  intros Hk. unfold build_paused_keyboard, bind.
  rewrite (activity_name_kind _ _ Hk). eauto.
Qed.

Lemma start_from_menu_wf w state s d now k :
  world_wf w -> has_day w state s d -> day_wf s d -> k ∈ KINDS ->
  exists w', start_from_menu state now k w = (Ret tt, w') /\ pressed w w'.
Proof.
  intros Hw Hday Hwf Hk. unfold start_from_menu.
  destruct (build_activity_keyboard_kind k
              (put_day state (running s k now) (credit s d now) w) Hk) as [kb Hkb].
  eexists. split.
  - eapply bind_run; [apply (start_ok _ _ _ _ _ _ Hday Hwf Hk)|].
    eapply bind_run; [exact Hkb|]. reflexivity.
  - split.
    + apply world_wf_with_sent.
      apply (world_wf_put_day _ _ _ _ _ _ Hw Hday); [reflexivity|].
      apply day_wf_running; [intros k' Hk'; apply credit_kinds, Hwf, Hk'|exact Hk].
    + cbn [sent with_sent put_day]. rewrite length_app. cbn. lia.
Qed.

Lemma pause_branch_wf w state s d now k :
  world_wf w -> has_day w state s d -> day_wf s d -> k ∈ KINDS ->
  exists w',
    (let* msg := pause_act state now k in
     let* kb := build_paused_keyboard k in
     reply_text msg (Some kb)) w = (Ret tt, w')
    /\ pressed w w'.
Proof.
  intros Hw Hday Hwf Hk.
  pose proof (pause_ok _ _ _ _ now _ Hday Hwf Hk) as Hp.
  destruct (bool_decide (current_activity s = Some k)).
  - destruct (build_paused_keyboard_kind k
                (put_day state (stopped s) (credit s d now) w) Hk) as [kb Hkb].
    eexists. split.
    + eapply bind_run; [exact Hp|]. eapply bind_run; [exact Hkb|]. reflexivity.
    + split.
      * apply world_wf_with_sent.
        apply (world_wf_put_day _ _ _ _ _ _ Hw Hday); [reflexivity|].
        apply day_wf_stopped, Hwf.
      * cbn [sent with_sent put_day]. rewrite length_app. cbn. lia.
  - destruct (build_paused_keyboard_kind k w Hk) as [kb Hkb].
    eexists. split.
    + eapply bind_run; [exact Hp|]. eapply bind_run; [exact Hkb|]. reflexivity.
    + split; [apply world_wf_with_sent, Hw|].
      cbn [sent with_sent]. rewrite length_app. cbn. lia.
Qed.

Lemma continue_branch_wf w state s d now k :
  world_wf w -> has_day w state s d -> day_wf s d -> k ∈ KINDS ->
  exists w',
    (let* msg := continue_act state now k in
     let* kb := build_activity_keyboard k in
     reply_text msg (Some kb)) w = (Ret tt, w')
    /\ pressed w w'.
Proof.
  intros Hw Hday Hwf Hk.
  destruct (build_activity_keyboard_kind k
              (put_day state (running s k now) d w) Hk) as [kb Hkb].
  eexists. split.
  - eapply bind_run; [apply (continue_ok _ _ _ _ _ _ Hday Hk)|].
    eapply bind_run; [exact Hkb|]. reflexivity.
  - split.
    + apply world_wf_with_sent.
      apply (world_wf_put_day _ _ _ _ _ _ Hw Hday); [reflexivity|].
      apply day_wf_running; [apply Hwf|exact Hk].
    + cbn [sent with_sent put_day]. rewrite length_app. cbn. lia.
Qed.

Lemma woke_up_wf w state s now :
  world_wf w -> user_state w !! state = Some s ->
  exists w', on_woke_up state now w = (Ret tt, w') /\ pressed w w'.
Proof.
  intros Hw Hs. eexists. split; [apply (woke_up_run _ _ _ _ Hs)|]. split.
  - apply world_wf_new_day; [exact Hw|apply zero_totals_fresh; reflexivity|reflexivity].
  - cbn [sent]. rewrite length_app. cbn. lia.
Qed.

Lemma report_branch_wf w state s d now :
  world_wf w -> has_day w state s d -> day_wf s d ->
  exists w',
    (let* msg := build_daily_report_text state now in
     reply_text msg (Some build_main_menu_keyboard)) w = (Ret tt, w')
    /\ pressed w w'.
Proof.
  intros Hw Hday Hwf. destruct (wake_time s) as [wk|] eqn:Hwk.
  - eexists. split.
    + eapply bind_run; [apply (report_ok _ _ _ _ wk now Hday Hwf Hwk)|]. reflexivity.
    + split; [apply world_wf_with_sent, world_wf_with_new_dict, Hw|].
      cbn [sent with_sent with_new_dict with_dicts]. rewrite length_app. cbn. lia.
  - eexists. split.
    + eapply bind_run; [apply (report_no_wake _ _ _ now (proj1 Hday) Hwk)|]. reflexivity.
    + split; [apply world_wf_with_sent, Hw|].
      cbn [sent with_sent]. rewrite length_app. cbn. lia.
Qed.

Lemma sleep_save_and_report_wf w user_id state s d wk now :
  world_wf w -> has_day w state s d -> day_wf s d ->
  wake_time s = Some wk -> sleep_time s = Some now -> closing s = None ->
  exists w',
    (let* wake := state_get state wake_time in
     let* end_ := state_get state sleep_time in
     match wake, end_ with
     | Some wake, Some end_ =>
         let alive := clamp (end_ - wake) in
         let* tot := state_get state totals in
         let* totals_copy := dict_copy tot in
         let day_date := date_of wake in
         let* _ := save_daily_stats_to_db user_id day_date alive totals_copy in
         let* report := build_daily_report_text state now in
         reply_text report (Some build_main_menu_keyboard)
     | _, _ => raise TypeError
     end) w = (Ret tt, w')
    /\ pressed w w'.
Proof.
  intros Hw Hday Hwf Hwk Hsl Hcl. pose proof Hday as [Hs Hd].
  assert (Hcredit : credit s d now = d) by (unfold credit; rewrite Hcl; reflexivity).
  pose proof (has_day_with_new_dict w state s d d Hday) as Hday4.
  assert (Hl4 : dicts (with_new_dict d w) !! fresh (dom (dicts w)) = Some d).
  { unfold with_new_dict. cbn [dicts with_dicts]. apply lookup_insert_eq. }
  pose proof (save_ok _ user_id (date_of wk) (clamp (now - wk)) _ d Hl4 (proj1 Hwf))
    as Hsave.
  pose proof (has_day_with_daily_stats _ state s d
                (insert_or_replace (day_row user_id wk now d)
                   (daily_stats (with_new_dict d w))) Hday4) as Hday5.
  pose proof (report_ok _ _ _ _ wk now Hday5 Hwf Hwk) as Hrep.
  rewrite Hcredit in Hrep.
  eexists. split.
  - eapply bind_run; [apply (state_get_run _ _ _ _ Hs)|].
    eapply bind_run; [apply (state_get_run _ _ _ _ Hs)|].
    rewrite Hwk, Hsl.
    eapply bind_run; [apply (state_get_run _ _ _ _ Hs)|].
    eapply bind_run; [apply (dict_copy_run _ _ _ Hd)|].
    eapply bind_run; [exact Hsave|].
    eapply bind_run; [exact Hrep|].
    reflexivity.
  - split.
    + apply world_wf_with_sent, world_wf_with_new_dict, world_wf_with_daily_stats,
        world_wf_with_new_dict, Hw.
    + cbn [sent with_sent with_new_dict with_dicts with_daily_stats].
      rewrite length_app. cbn. lia.
Qed.

Lemma sleep_branch_wf w user_id state s d now :
  world_wf w -> has_day w state s d -> day_wf s d ->
  exists w', on_sleep_time user_id state now w = (Ret tt, w') /\ pressed w w'.
Proof.
  intros Hw Hday Hwf. pose proof Hday as [Hs Hd].
  destruct (wake_time s) as [wk|] eqn:Hwk.
  - set (s1 := with_sleep_time (Some now) s).
    set (s' := mkState (Some wk) (Some now) None None (totals s)).
    assert (Hset : state_set state (with_sleep_time (Some now)) w
                   = (Ret tt, put_day state s1 d w)).
    { rewrite (state_set_run _ _ _ _ Hs). unfold put_day, with_user_state.
      cbn [totals s1 with_sleep_time]. rewrite (insert_id _ _ _ Hd). reflexivity. }
    assert (Hwf1 : day_wf s1 d) by exact Hwf.
    assert (Hw1 : world_wf (put_day state s1 d w)).
    { apply (world_wf_put_day _ _ _ _ _ _ Hw Hday); [reflexivity|exact Hwf1]. }
    pose proof (close_ok _ _ _ _ now (has_day_put_day state s1 d w) Hwf1) as Hclose.
    assert (Hs'eq : stopped s1 = s').
    { unfold stopped, s1, s'. cbn. rewrite Hwk. reflexivity. }
    rewrite Hs'eq in Hclose.
    rewrite put_day_put_day in Hclose by reflexivity.
    assert (Hwf2 : day_wf s' (credit s1 d now)).
    { split; [intros k Hk; apply credit_kinds, Hwf, Hk|].
      split; [discriminate|reflexivity]. }
    assert (Hw2 : world_wf (put_day state s' (credit s1 d now) w)).
    { apply (world_wf_put_day _ _ _ _ _ _ Hw Hday); [reflexivity|exact Hwf2]. }
    pose proof (world_wf_with_sent _
                  (sent (put_day state s' (credit s1 d now) w)
                   ++ [(sleep_message now (current_activity s),
                        Some build_main_menu_keyboard)])%list Hw2) as Hw3.
    pose proof (has_day_with_sent _ state s' (credit s1 d now)
                  (sent (put_day state s' (credit s1 d now) w)
                   ++ [(sleep_message now (current_activity s),
                        Some build_main_menu_keyboard)])%list
                  (has_day_put_day state s' (credit s1 d now) w)) as Hday3.
    destruct (sleep_save_and_report_wf _ user_id state s' (credit s1 d now) wk now
                Hw3 Hday3 Hwf2 eq_refl eq_refl eq_refl) as (w' & Hrun & Hw' & Hlen).
    exists w'. split.
    + unfold on_sleep_time.
      eapply bind_run; [apply (state_get_run _ _ _ _ Hs)|]. rewrite Hwk.
      eapply bind_run; [exact Hset|].
      eapply bind_run; [exact Hclose|].
      eapply bind_run; [apply (sleep_message_run _ _ _ _ Hwf)|].
      eapply bind_run; [reflexivity|].
      exact Hrun.
    + split; [exact Hw'|].
      cbn [sent with_sent put_day] in Hlen. rewrite length_app in Hlen. cbn in Hlen. lia.
  - eexists. split; [apply (sleep_no_day _ _ _ _ _ Hs Hwk)|].
    split; [apply world_wf_with_sent, Hw|].
    cbn [sent with_sent]. rewrite length_app. cbn. lia.
Qed.

Lemma handler_after_get_user_state user_id data now w (branch : Z -> M unit) :
  callback_handler user_id data now w
  = (let* state := get_user_state user_id in branch state) w ->
  world_wf w ->
  (forall w1 s d, world_wf w1 -> has_day w1 user_id s d -> day_wf s d ->
     exists w', branch user_id w1 = (Ret tt, w') /\ pressed w1 w') ->
  exists w', callback_handler user_id data now w = (Ret tt, w') /\ pressed w w'.
Proof.
  intros Heq Hw Hbranch. rewrite Heq.
  destruct (get_user_state_wf w user_id Hw) as (w1 & s & d & Hget & Hw1 & Hday & Hwf & Hsent).
  destruct (Hbranch w1 s d Hw1 Hday Hwf) as (w' & Hrun & Hw' & Hlen).
  exists w'. split; [unfold bind; rewrite Hget; exact Hrun|].
  split; [exact Hw'|rewrite <- Hsent; exact Hlen].
Qed.

(** X11.  In a world where every user's day is in good order, a press
    of any button the module shows never raises: the handler returns,
    sends at least one message and leaves every day in good order. *)
Theorem buttons_never_raise (w : World) (user_id : Z) (data : string) (now : datetime) :
  world_wf w -> In data BUTTONS ->
  exists w',
    callback_handler user_id data now w = (Ret tt, w')
    /\ world_wf w'
    /\ (length (sent w) < length (sent w'))%nat.
Proof.
  intros Hw Hdata.
  assert (Hmenu : forall text kb w1, world_wf w1 ->
            exists w', reply_text text kb w1 = (Ret tt, w') /\ pressed w1 w').
  { intros text kb w1 Hw1. eexists. split; [reflexivity|].
    split; [apply world_wf_with_sent, Hw1|].
    cbn [sent with_sent]. rewrite length_app. cbn. lia. }
  assert (Hkind : forall k, In k ["contrib"; "soft"; "hands"; "coding"] -> k ∈ KINDS).
  { intros k Hk. apply list_elem_of_In. exact Hk. }
  cbv in Hdata.
  repeat (destruct Hdata as [<-|Hdata];
    [first
       [ (* menus *)
         apply (handler_after_get_user_state _ _ _ _
                  (fun _ => reply_text "Menu:" (Some build_main_menu_keyboard)));
           [reflexivity|exact Hw|intros; apply Hmenu; assumption]
       | apply (handler_after_get_user_state _ _ _ _
                  (fun _ => reply_text "Abuse mode:" (Some build_abuse_keyboard)));
           [reflexivity|exact Hw|intros; apply Hmenu; assumption]
       | apply (handler_after_get_user_state _ _ _ _ (fun state => on_woke_up state now));
           [reflexivity|exact Hw|
            intros w1 s d Hw1 Hd1 Hwf1; apply (woke_up_wf _ _ s); [exact Hw1|apply Hd1]]
       | apply (handler_after_get_user_state _ _ _ _
                  (fun state => on_sleep_time user_id state now));
           [reflexivity|exact Hw|
            intros w1 s d Hw1 Hd1 Hwf1; apply (sleep_branch_wf _ _ _ s d); assumption]
       | apply (handler_after_get_user_state _ _ _ _
                  (fun state =>
                     let* msg := build_daily_report_text state now in
                     reply_text msg (Some build_main_menu_keyboard)));
           [reflexivity|exact Hw|
            intros w1 s d Hw1 Hd1 Hwf1; apply (report_branch_wf _ _ s d); assumption]
       | match goal with
         | |- context [callback_handler _ (String "s"%char (String "t"%char ?rest)) _ _] =>
             let k := eval cbv in (substring 6 10 (String "s"%char (String "t"%char rest))) in
             apply (handler_after_get_user_state _ _ _ _
                      (fun state => start_from_menu state now k));
               [reflexivity|exact Hw|
                intros w1 s d Hw1 Hd1 Hwf1;
                apply (start_from_menu_wf _ _ s d); try assumption;
                apply Hkind; cbn; tauto]
         | |- context [callback_handler _ (String "p"%char ?rest) _ _] =>
             let k := eval cbv in (substring 6 10 (String "p"%char rest)) in
             apply (handler_after_get_user_state _ _ _ _
                      (fun state =>
                         let* msg := pause_act state now k in
                         let* kb := build_paused_keyboard k in
                         reply_text msg (Some kb)));
               [reflexivity|exact Hw|
                intros w1 s d Hw1 Hd1 Hwf1;
                apply (pause_branch_wf _ _ s d); try assumption;
                apply Hkind; cbn; tauto]
         | |- context [callback_handler _ (String "c"%char ?rest) _ _] =>
             let k := eval cbv in (substring 9 10 (String "c"%char rest)) in
             apply (handler_after_get_user_state _ _ _ _
                      (fun state =>
                         let* msg := continue_act state now k in
                         let* kb := build_activity_keyboard k in
                         reply_text msg (Some kb)));
               [reflexivity|exact Hw|
                intros w1 s d Hw1 Hd1 Hwf1;
                apply (continue_branch_wf _ _ s d); try assumption;
                apply Hkind; cbn; tauto]
         end ]
    |]).
  destruct Hdata.
Qed.

Lemma buttons_never_raise_witness :
  exists w',
    callback_handler 7 "pause_coding" (at_clock 9 30) world_coding = (Ret tt, w')
    /\ world_wf w'
    /\ (length (sent world_coding) < length (sent w'))%nat.
Proof.
  apply (buttons_never_raise world_coding 7 "pause_coding" (at_clock 9 30)).
  - intros u s Hs. unfold world_coding in Hs. cbn [user_state] in Hs.
    apply lookup_singleton_Some in Hs as [_ <-]. exists zero_totals.
    split; [vm_compute; reflexivity|exact day_wf_coding].
  - vm_compute. tauto.
Defined.

(** ** The month report *)






(** ** Totals only grow *)

Lemma credit_other s d now k :
  current_activity s <> Some k -> credit s d now !! k = d !! k.
Proof.
  intros Hk. unfold credit, closing.
  destruct (current_activity s) as [c|]; [|reflexivity].
  destruct (current_start s); [|reflexivity].
  destruct (String.eqb c ""); [reflexivity|].
  destruct (d !! c); [|reflexivity].
  apply lookup_insert_ne. congruence.
Qed.

Lemma credit_grows s d now k :
  default 0 (d !! k) <= default 0 (credit s d now !! k).
Proof.
  unfold credit. destruct (closing s) as [[c t0]|]; [|lia].
  destruct (d !! c) as [v|] eqn:Hc; [|lia].
  destruct (decide (c = k)) as [->|Hne].
  - rewrite lookup_insert_eq, Hc, clamp_max. cbn. lia.
  - rewrite lookup_insert_ne by exact Hne. lia.
Qed.

(** X13.  On a day in good order no start, pause or resume of a kind
    raises or lowers a total: every total is at least what it was, only
    the total of the running activity can change, and the state keeps
    its totals dictionary. *)
Theorem totals_never_decrease
    (w : World) (state : Z) (s : State) (d : gmap string Z) (o : op) :
  has_day w state s d -> day_wf s d -> op_code o ∈ KINDS ->
  exists msg w' s' d',
    do_op state o w = (Ret msg, w')
    /\ has_day w' state s' d'
    /\ totals s' = totals s
    /\ (forall k, default 0 (d !! k) <= default 0 (d' !! k))
    /\ (forall k, current_activity s <> Some k -> d' !! k = d !! k).
Proof.
  intros Hday Hwf Hcode. destruct o as [c t|c t|c t]; cbn [do_op op_code] in *.
  - eexists _, _, (running s c t), (credit s d t).
    split; [apply (start_ok _ _ _ _ _ _ Hday Hwf Hcode)|].
    split; [apply has_day_put_day|]. split; [reflexivity|].
    split; [intros k; apply credit_grows|intros k; apply credit_other].
  - rewrite (pause_ok _ _ _ _ _ _ Hday Hwf Hcode).
    destruct (bool_decide (current_activity s = Some c)).
    + eexists _, _, (stopped s), (credit s d t).
      split; [reflexivity|]. split; [apply has_day_put_day|]. split; [reflexivity|].
      split; [intros k; apply credit_grows|intros k; apply credit_other].
    + eexists _, _, s, d.
      split; [reflexivity|]. split; [exact Hday|]. split; [reflexivity|].
      split; [intros k; lia|reflexivity].
  - eexists _, _, (running s c t), d.
    split; [apply (continue_ok _ _ _ _ _ _ Hday Hcode)|].
    split; [apply has_day_put_day|]. split; [reflexivity|].
    split; [intros k; lia|reflexivity].
Qed.

Lemma totals_never_decrease_witness :
  exists msg w' s' d',
    do_op 7 (Start "soft" (at_clock 9 30)) world_coding = (Ret msg, w')
    /\ has_day w' 7 s' d'
    /\ totals s' = totals day_coding
    /\ (forall k, default 0 (zero_totals !! k) <= default 0 (d' !! k))
    /\ (forall k, current_activity day_coding <> Some k -> d' !! k = zero_totals !! k).
Proof.
  apply (totals_never_decrease world_coding 7 day_coding zero_totals
           (Start "soft" (at_clock 9 30))).
  - split; vm_compute; reflexivity.
  - exact day_wf_coding.
  - unfold KINDS. repeat constructor.
Defined.

(** ** What the report shows is what closing would credit *)

(** X14.  The totals the daily report shows for a started day in good
    order are the totals [close_current_activity] would leave at the
    same instant: the stored totals plus the elapsed time of the running
    activity; the report leaves the day as it was. *)
Theorem report_shows_what_close_credits
    (w : World) (state : Z) (s : State) (d : gmap string Z) (wk now : datetime) :
  has_day w state s d -> day_wf s d -> wake_time s = Some wk ->
  exists shown,
    dicts (snd (build_daily_report_text state now w)) !! fresh (dom (dicts w))
      = Some shown
    /\ has_day (snd (close_current_activity state now w)) state (stopped s) shown
    /\ sum_totals shown = sum_totals d + running_elapsed s now
    /\ has_day (snd (build_daily_report_text state now w)) state s d.
Proof.
  intros Hday Hwf Hwk. exists (credit s d now).
  rewrite (report_ok _ _ _ _ wk now Hday Hwf Hwk), (close_ok _ _ _ _ now Hday Hwf).
  cbn [snd]. split; [cbn [dicts with_new_dict with_dicts]; apply lookup_insert_eq|].
  split; [apply has_day_put_day|].
  split; [apply sum_totals_credit, Hwf|apply has_day_with_new_dict, Hday].
Qed.

Lemma report_shows_what_close_credits_witness :
  exists shown,
    dicts (snd (build_daily_report_text 7 (at_clock 9 30) world_coding))
      !! fresh (dom (dicts world_coding)) = Some shown
    /\ has_day (snd (close_current_activity 7 (at_clock 9 30) world_coding)) 7
         (stopped day_coding) shown
    /\ sum_totals shown
       = sum_totals zero_totals + running_elapsed day_coding (at_clock 9 30)
    /\ has_day (snd (build_daily_report_text 7 (at_clock 9 30) world_coding)) 7
         day_coding zero_totals.
Proof.
  apply (report_shows_what_close_credits world_coding 7 day_coding zero_totals
           (at_clock 8 0) (at_clock 9 30)).
  - split; vm_compute; reflexivity.
  - exact day_wf_coding.
  - reflexivity.
Defined.

(** ** Data that no button carries *)

(** X15.  Data that is none of the handler's literals and starts with
    neither ["pause_"] nor ["continue_"] is ignored: the handler returns
    having only made sure the user's state exists, with no message sent
    and the table untouched. *)
Theorem unknown_data_is_ignored
    (w : World) (user_id : Z) (data : string) (now : datetime) :
  Forall (fun lit => data <> lit)
    ["show_menu"; "woke_up"; "sleep_time"; "abuse_menu"; "start_contrib";
     "start_soft"; "start_hands"; "start_coding"; "daily_report"] ->
  String.prefix "pause_" data = false ->
  String.prefix "continue_" data = false ->
  callback_handler user_id data now w = (Ret tt, snd (get_user_state user_id w))
  /\ sent (snd (get_user_state user_id w)) = sent w
  /\ daily_stats (snd (get_user_state user_id w)) = daily_stats w.
Proof.
  intros Hlits Hp Hc. split.
  - unfold callback_handler, bind.
    destruct (get_user_state_returns user_id w) as [w1 ->].
    repeat match goal with
           | H : Forall _ (_ :: _) |- _ =>
               let Hne := fresh "Hne" in
               apply Forall_cons in H as [Hne H];
               apply String.eqb_neq in Hne; rewrite Hne
           end.
    rewrite Hp, Hc. reflexivity.
  - unfold get_user_state. destruct (user_state w !! user_id); split; reflexivity.
Qed.

Lemma unknown_data_is_ignored_witness :
  callback_handler 7 "stop_coding" (at_clock 9 30) world_coding
  = (Ret tt, snd (get_user_state 7 world_coding)).
Proof.
  apply (unknown_data_is_ignored world_coding 7 "stop_coding" (at_clock 9 30)).
  - repeat constructor; discriminate.
  - reflexivity.
  - reflexivity.
Defined.
